(** * Secret-page backend: the request handlers over a relational store

    A shallow embedding of the Express handlers of the backend
    (src/unnamed/part_001) over the three tables declared in
    src/db/schema.ts, followed by the properties of the authorization and
    relationship model.

    Conventions of the embedding.
    - A table is the list of its rows in insertion order.
    - A uuid is the string that carries it; the text syntax of a uuid is not
      modelled (every string stands for a uuid literal).
    - [new Date()] and the store's [gen_random_uuid()] are inputs of a
      request (record [Env]): the handler reads the first, the store draws
      the second for the primary key of an inserted row.
    - A statement that violates a constraint of the schema throws; the
      handler's [catch] turns that into the 500 answer.
    - Every statement sent to the store is recorded (the ORM is created with
      [logger: true]), so "no store call" is "the log did not grow".
    - Of a JSON answer the HTTP code, [success], [status] and the payload are
      kept; the human-readable [message]/[error] texts are dropped. *)

From Stdlib Require Import String Ascii List ZArith NArith Bool Lia.
Import ListNotations.
Open Scope string_scope.

(** ** JavaScript values of a request body *)

(** A JavaScript string is a sequence of UTF-16 code units. *)
Definition jsstring := list N.

Definition code_unit (c : ascii) : N := N_of_ascii c.

(** An ASCII literal as a JavaScript string. *)
Definition js (s : string) : jsstring := map code_unit (list_ascii_of_string s).

(** WhiteSpace and LineTerminator code units of ECMAScript, the ones
    [String.prototype.trim] strips. *)
Definition isWhiteSpace (c : N) : bool :=
  ((c =? 9) || (c =? 10) || (c =? 11) || (c =? 12) || (c =? 13) || (c =? 32)
   || (c =? 160) || (c =? 5760)
   || ((8192 <=? c) && (c <=? 8202))
   || (c =? 8232) || (c =? 8233) || (c =? 8239) || (c =? 8287)
   || (c =? 12288) || (c =? 65279))%N.

Fixpoint trimStart (s : jsstring) : jsstring :=
  match s with
  | c :: s' => if isWhiteSpace c then trimStart s' else s
  | [] => []
  end.

Definition trimEnd (s : jsstring) : jsstring := rev (trimStart (rev s)).

(** [content.trim()] *)
Definition trim (s : jsstring) : jsstring := trimEnd (trimStart s).

(** [s === ''] *)
Definition is_empty (s : jsstring) : bool :=
  match s with [] => true | _ => false end.

(** A field of a parsed JSON body; arrays and objects are not told apart. *)
Inductive JsValue :=
| JUndefined
| JNull
| JBoolean (b : bool)
| JNumber (n : Z)
| JString (s : jsstring)
| JObject.

(** ** Rows of the schema (src/db/schema.ts) *)

Record User := mkUser {
  u_id : string;
  u_email : string;
  u_createdAt : Z
}.

Record SecretMessage := mkSecret {
  sm_id : string;
  sm_user_id : string;
  sm_content : jsstring;
  sm_updated_at : Z
}.

Record FriendRequest := mkRequest {
  fr_id : string;
  fr_sender_id : string;
  fr_receiver_id : string;
  fr_status : string;
  fr_created_at : Z
}.

(** Statements the handlers send, as the logger sees them. *)
Inductive Statement :=
| InsertUsers
| DeleteUsers
| InsertSecretMessages
| SelectSecretMessages
| UpdateSecretMessages
| FindFirstFriendRequests
| InsertFriendRequests
| SelectIncomingRequests
| UpdateFriendRequests
| DeleteFriendRequests
| SelectFriendship
| SelectFriendsSecrets.

Record Store := mkStore {
  users : list User;
  secretMessages : list SecretMessage;
  friendRequests : list FriendRequest;
  queryLog : list Statement
}.

Definition empty_store : Store := mkStore [] [] [] [].

(** ** The store monad: state, and the errors a statement can throw *)

Inductive DbError :=
| NotNullViolation
| UniqueViolation
| ForeignKeyViolation.

Inductive Outcome (A : Type) :=
| Returned (a : A)
| Threw (e : DbError).
Arguments Returned {A} a.
Arguments Threw {A} e.

Definition Db (A : Type) : Type := Store -> Outcome A * Store.

Definition ret {A} (a : A) : Db A := fun s => (Returned a, s).

Definition bind {A B} (m : Db A) (k : A -> Db B) : Db B :=
  fun s =>
    match m s with
    | (Returned a, s') => k a s'
    | (Threw e, s') => (Threw e, s')
    end.

Definition throw {A} (e : DbError) : Db A := fun s => (Threw e, s).

(** [try { body } catch (error) { handler }] *)
Definition try_catch {A} (body : Db A) (handler : DbError -> A) : Db A :=
  fun s =>
    match body s with
    | (Returned a, s') => (Returned a, s')
    | (Threw e, s') => (Returned (handler e), s')
    end.

Declare Scope db_scope.
Delimit Scope db_scope with db.
Notation "x <- m ;; k" := (bind m (fun x => k))
  (at level 61, m at next level, right associativity) : db_scope.
Notation "m ;;; k" := (bind m (fun _ => k))
  (at level 61, right associativity) : db_scope.
Open Scope db_scope.

(** The logger: every statement is printed before it runs. *)
Definition logQuery (q : Statement) : Db unit :=
  fun s => (Returned tt,
            mkStore (users s) (secretMessages s) (friendRequests s)
                    (queryLog s ++ [q])).

Definition getStore : Db Store := fun s => (Returned s, s).

Definition setUsers (l : list User) : Db unit :=
  fun s => (Returned tt,
            mkStore l (secretMessages s) (friendRequests s) (queryLog s)).

Definition setSecretMessages (l : list SecretMessage) : Db unit :=
  fun s => (Returned tt, mkStore (users s) l (friendRequests s) (queryLog s)).

Definition setFriendRequests (l : list FriendRequest) : Db unit :=
  fun s => (Returned tt, mkStore (users s) (secretMessages s) l (queryLog s)).

(** ** Constraints of the schema *)

Definition user_exists (id : string) (s : Store) : bool :=
  existsb (fun u => u_id u =? id) (users s).

Definition secret_id_taken (id : string) (s : Store) : bool :=
  existsb (fun m => sm_id m =? id) (secretMessages s).

Definition request_id_taken (id : string) (s : Store) : bool :=
  existsb (fun r => fr_id r =? id) (friendRequests s).

(** [friend_requests_unique_pair_idx] on (sender_id, receiver_id). *)
Definition same_pair (sender receiver : string) (r : FriendRequest) : bool :=
  (fr_sender_id r =? sender) && (fr_receiver_id r =? receiver).

Definition pair_taken (sender receiver : string) (s : Store) : bool :=
  existsb (same_pair sender receiver) (friendRequests s).

(** ** Statements *)

(** [db.insert(users).values({id, email, createdAt}).onConflictDoNothing()
    .returning()]. [email] is NOT NULL, which the store checks before it
    looks for a conflicting primary key. *)
Definition insertUser (id : string) (email : option string) (createdAt : Z)
  : Db (list User) :=
  logQuery InsertUsers ;;;
  s <- getStore ;;
  match email with
  | None => throw NotNullViolation
  | Some e =>
      if user_exists id s then ret []
      else
        let row := mkUser id e createdAt in
        setUsers (users s ++ [row]) ;;;
        ret [row]
  end.

(** [db.delete(users).where(eq(users.id, userId)).returning()], with the
    [onDelete: 'cascade'] of [secret_messages.user_id],
    [friend_requests.sender_id] and [friend_requests.receiver_id]. *)
Definition deleteUser (userId : string) : Db (list User) :=
  logQuery DeleteUsers ;;;
  s <- getStore ;;
  let deleted := filter (fun u => u_id u =? userId) (users s) in
  match deleted with
  | [] => ret []
  | _ :: _ =>
      setUsers (filter (fun u => negb (u_id u =? userId)) (users s)) ;;;
      setSecretMessages
        (filter (fun m => negb (sm_user_id m =? userId)) (secretMessages s)) ;;;
      setFriendRequests
        (filter (fun r => negb (fr_sender_id r =? userId)
                          && negb (fr_receiver_id r =? userId))
                (friendRequests s)) ;;;
      ret deleted
  end.

(** [db.insert(secretMessages).values({user_id, content, updated_at})
    .returning()]; the primary key is drawn by the store. *)
Definition insertSecretMessage (gen_random_uuid user_id : string)
  (content : jsstring) (updated_at : Z) : Db (list SecretMessage) :=
  logQuery InsertSecretMessages ;;;
  s <- getStore ;;
  if secret_id_taken gen_random_uuid s then throw UniqueViolation
  else if negb (user_exists user_id s) then throw ForeignKeyViolation
  else
    let row := mkSecret gen_random_uuid user_id content updated_at in
    setSecretMessages (secretMessages s ++ [row]) ;;;
    ret [row].

(** [db.select().from(secretMessages).where(eq(secretMessages.user_id, userId))] *)
Definition selectSecretMessages (userId : string) : Db (list SecretMessage) :=
  logQuery SelectSecretMessages ;;;
  s <- getStore ;;
  ret (filter (fun m => sm_user_id m =? userId) (secretMessages s)).

(** [db.update(secretMessages).set({content, updated_at})
    .where(eq(secretMessages.id, id)).returning()] *)
Definition set_secret (content : jsstring) (updated_at : Z) (m : SecretMessage)
  : SecretMessage :=
  mkSecret (sm_id m) (sm_user_id m) content updated_at.

Definition updateSecretMessage (id : string) (content : jsstring)
  (updated_at : Z) : Db (list SecretMessage) :=
  logQuery UpdateSecretMessages ;;;
  s <- getStore ;;
  let hit := fun m => sm_id m =? id in
  setSecretMessages
    (map (fun m => if hit m then set_secret content updated_at m else m)
         (secretMessages s)) ;;;
  ret (map (set_secret content updated_at) (filter hit (secretMessages s))).

(** [db.query.friendRequests.findFirst({where: and(eq(sender_id, ..),
    eq(receiver_id, ..))})] *)
Definition findFirstFriendRequest (sender_id receiver_id : string)
  : Db (option FriendRequest) :=
  logQuery FindFirstFriendRequests ;;;
  s <- getStore ;;
  ret (find (same_pair sender_id receiver_id) (friendRequests s)).

(** [db.insert(friendRequests).values({sender_id, receiver_id, status,
    created_at}).returning()] *)
Definition insertFriendRequest (gen_random_uuid sender_id receiver_id : string)
  (status : string) (created_at : Z) : Db (list FriendRequest) :=
  logQuery InsertFriendRequests ;;;
  s <- getStore ;;
  if request_id_taken gen_random_uuid s then throw UniqueViolation
  else if negb (user_exists sender_id s) then throw ForeignKeyViolation
  else if negb (user_exists receiver_id s) then throw ForeignKeyViolation
  else if pair_taken sender_id receiver_id s then throw UniqueViolation
  else
    let row := mkRequest gen_random_uuid sender_id receiver_id status
                         created_at in
    setFriendRequests (friendRequests s ++ [row]) ;;;
    ret [row].

(** Rows of [GET /friends/friend-requests]. *)
Record IncomingRequest := mkIncoming {
  in_id : string;
  in_status : string;
  in_created_at : Z;
  in_sender_id : string;
  in_receiver_id : string;
  in_sender_email : string
}.

(** [db.select({..}).from(friendRequests)
      .innerJoin(users, eq(friendRequests.sender_id, users.id))
      .where(and(eq(friendRequests.receiver_id, userId),
                 eq(friendRequests.status, 'pending')))] *)
Definition selectIncomingRequests (userId : string)
  : Db (list IncomingRequest) :=
  logQuery SelectIncomingRequests ;;;
  s <- getStore ;;
  ret (flat_map
         (fun r =>
            flat_map
              (fun u =>
                 if (fr_sender_id r =? u_id u)
                    && ((fr_receiver_id r =? userId)
                        && (fr_status r =? "pending"))
                 then [mkIncoming (fr_id r) (fr_status r) (fr_created_at r)
                                  (fr_sender_id r) (fr_receiver_id r)
                                  (u_email u)]
                 else [])
              (users s))
         (friendRequests s)).

(** [db.update(friendRequests).set({status: 'accepted'})
      .where(and(eq(friendRequests.id, requestId),
                 eq(friendRequests.receiver_id, userId))).returning()] *)
Definition set_status (status : string) (r : FriendRequest) : FriendRequest :=
  mkRequest (fr_id r) (fr_sender_id r) (fr_receiver_id r) status
            (fr_created_at r).

Definition updateFriendRequest (requestId userId : string)
  : Db (list FriendRequest) :=
  logQuery UpdateFriendRequests ;;;
  s <- getStore ;;
  let hit := fun r => (fr_id r =? requestId) && (fr_receiver_id r =? userId) in
  setFriendRequests
    (map (fun r => if hit r then set_status "accepted" r else r)
         (friendRequests s)) ;;;
  ret (map (set_status "accepted") (filter hit (friendRequests s))).

(** [db.delete(friendRequests).where(eq(friendRequests.id, requestId))
      .returning()] *)
Definition deleteFriendRequest (requestId : string)
  : Db (list FriendRequest) :=
  logQuery DeleteFriendRequests ;;;
  s <- getStore ;;
  setFriendRequests
    (filter (fun r => negb (fr_id r =? requestId)) (friendRequests s)) ;;;
  ret (filter (fun r => fr_id r =? requestId) (friendRequests s)).

(** [db.select().from(friendRequests)
      .where(and(eq(friendRequests.sender_id, friendId),
                 eq(friendRequests.status, 'accepted')))] *)
Definition accepted_from (friendId : string) (r : FriendRequest) : bool :=
  (fr_sender_id r =? friendId) && (fr_status r =? "accepted").

Definition selectFriendship (friendId : string) : Db (list FriendRequest) :=
  logQuery SelectFriendship ;;;
  s <- getStore ;;
  ret (filter (accepted_from friendId) (friendRequests s)).

(** Rows of [GET /friends/messages/:friendId]. *)
Record FriendSecret := mkFriendSecret {
  fs_sender_id : string;
  fs_receiver_id : string;
  fs_friend_email : string;
  fs_friend_secret : jsstring;
  fs_secret_message_id : string;
  fs_created_at : Z
}.

(** [db.select({..}).from(friendRequests)
      .innerJoin(users, or(eq(friendRequests.sender_id, users.id),
                           eq(friendRequests.receiver_id, users.id)))
      .innerJoin(secretMessages, eq(secretMessages.user_id, users.id))
      .where(and(eq(friendRequests.receiver_id, userId),
                 eq(friendRequests.status, 'accepted')))] *)
Definition selectFriendsSecrets (userId : string) : Db (list FriendSecret) :=
  logQuery SelectFriendsSecrets ;;;
  s <- getStore ;;
  ret (flat_map
         (fun r =>
            flat_map
              (fun u =>
                 flat_map
                   (fun m =>
                      if ((fr_sender_id r =? u_id u)
                          || (fr_receiver_id r =? u_id u))
                         && (sm_user_id m =? u_id u)
                         && ((fr_receiver_id r =? userId)
                             && (fr_status r =? "accepted"))
                      then [mkFriendSecret (fr_sender_id r) (fr_receiver_id r)
                                           (u_email u) (sm_content m)
                                           (sm_id m) (fr_created_at r)]
                      else [])
                   (secretMessages s))
              (users s))
         (friendRequests s)).

(** ** Answers *)

Inductive Data :=
| NoData
| UserData (u : User)
| SecretData (m : SecretMessage)
| SecretList (l : list SecretMessage)
| RequestData (r : option FriendRequest)
| IncomingList (l : list IncomingRequest)
| FriendsSecrets (l : list FriendSecret).

(** [res.status(code).json({success, status, data})]; a field the handler
    does not send is [None]. *)
Record Response := mkResponse {
  code : Z;
  success : option bool;
  status : option string;
  data : Data
}.

Definition json (c : Z) (ok : bool) (st : string) (d : Data) : Response :=
  mkResponse c (Some ok) (Some st) d.

(** What a request reads from its environment. *)
Record Env := mkEnv {
  now : Z;
  gen_random_uuid : string
}.

(** ** Middleware *)

(** [authMiddleware]: the caller's identity is the [x-user-id] header. *)
Definition authMiddleware (x_user_id : option string)
  (next : string -> Db Response) : Db Response :=
  match x_user_id with
  | None => ret (mkResponse 401 None None NoData)
  | Some userId =>
      if userId =? "" then ret (mkResponse 401 None None NoData)
      else next userId
  end.

(** ** Endpoints *)

(** [POST /api/protected/users] *)
Definition postUsers (userId : string) (email : option string) (env : Env)
  : Db Response :=
  try_catch
    (rows <- insertUser userId email (now env) ;;
     match rows with
     | [] => ret (json 200 true "exists" NoData)
     | user :: _ => ret (json 201 true "created" (UserData user))
     end)
    (fun _ => json 500 false "error" NoData).

(** [DELETE /api/protected/users/:userId] *)
Definition deleteUsers (userId : string) : Db Response :=
  try_catch
    (deletedUser <- deleteUser userId ;;
     match deletedUser with
     | [] => ret (json 404 false "not_found" NoData)
     | u :: _ => ret (json 200 true "deleted" (UserData u))
     end)
    (fun _ => json 500 false "error" NoData).

(** [POST /api/protected/secret] *)
Definition postSecret (userId : string) (content : JsValue) (env : Env)
  : Db Response :=
  match content with
  | JString c =>
      if (userId =? "") || is_empty (trim c)
      then ret (json 400 false "invalid_request" NoData)
      else
        try_catch
          (rows <- insertSecretMessage (gen_random_uuid env) userId (trim c)
                                       (now env) ;;
           match rows with
           | [] => ret (json 500 false "insert_failed" NoData)
           | secret :: _ => ret (json 201 true "created" (SecretData secret))
           end)
          (fun _ => json 500 false "server_error" NoData)
  | _ => ret (json 400 false "invalid_request" NoData)
  end.

(** [GET /api/protected/secret-message] *)
Definition getSecretMessage (userId : string) : Db Response :=
  if userId =? "" then ret (json 401 false "unauthorized" NoData)
  else
    try_catch
      (messages <- selectSecretMessages userId ;;
       ret (json 200 true "fetched" (SecretList messages)))
      (fun _ => json 500 false "server_error" NoData).

(** [PUT /api/protected/secret/:id] *)
Definition putSecret (userId id : string) (content : JsValue) (env : Env)
  : Db Response :=
  match content with
  | JString c =>
      if (userId =? "") || (id =? "") || is_empty (trim c)
      then ret (json 400 false "invalid_request" NoData)
      else
        try_catch
          (updated <- updateSecretMessage id (trim c) (now env) ;;
           match updated with
           | [] => ret (json 404 false "not_found" NoData)
           | m :: _ => ret (json 200 true "updated" (SecretData m))
           end)
          (fun _ => json 500 false "server_error" NoData)
  | _ => ret (json 400 false "invalid_request" NoData)
  end.

(** [!receiver_id] *)
Definition missing (v : option string) : bool :=
  match v with
  | None => true
  | Some x => x =? ""
  end.

(** [POST /api/protected/add-friend] *)
Definition postAddFriend (sender_id : string) (receiver_id : option string)
  (env : Env) : Db Response :=
  match receiver_id with
  | None => ret (mkResponse 400 None None NoData)
  | Some receiver =>
      if missing receiver_id || (receiver =? sender_id)
      then ret (mkResponse 400 None None NoData)
      else
        try_catch
          (existing <- findFirstFriendRequest sender_id receiver ;;
           match existing with
           | Some _ => ret (mkResponse 409 None None NoData)
           | None =>
               rows <- insertFriendRequest (gen_random_uuid env) sender_id
                                           receiver "pending" (now env) ;;
               ret (mkResponse 200 (Some true) None (RequestData (hd_error rows)))
           end)
          (fun _ => mkResponse 500 None None NoData)
  end.

(** [GET /api/protected/friends/friend-requests] *)
Definition getFriendRequests (userId : string) : Db Response :=
  try_catch
    (requests <- selectIncomingRequests userId ;;
     ret (mkResponse 200 (Some true) None (IncomingList requests)))
    (fun _ => mkResponse 500 (Some false) None NoData).

(** [POST /api/protected/friends/accept] *)
Definition postFriendsAccept (userId requestId : string) : Db Response :=
  try_catch
    (rows <- updateFriendRequest requestId userId ;;
     ret (mkResponse 200 (Some true) None (RequestData (hd_error rows))))
    (fun _ => mkResponse 500 (Some false) None NoData).

(** [DELETE /api/protected/friends/:requestId] *)
Definition deleteFriends (userId requestId : string) : Db Response :=
  try_catch
    (deletedRequest <- deleteFriendRequest requestId ;;
     match deletedRequest with
     | [] => ret (json 404 false "not_found" NoData)
     | r :: _ => ret (json 200 true "deleted" (RequestData (Some r)))
     end)
    (fun _ => json 500 false "error" NoData).

(** [GET /api/protected/friends/messages/:friendId] *)
Definition getFriendsMessages (userId friendId : string) : Db Response :=
  try_catch
    (friendship <- selectFriendship friendId ;;
     match friendship with
     | [] => ret (json 401 false "Unauthorized" NoData)
     | _ :: _ =>
         friendsSecrets <- selectFriendsSecrets userId ;;
         ret (json 200 true "retrieved" (FriendsSecrets friendsSecrets))
     end)
    (fun _ => json 500 false "server_error" NoData).

(** ** The server as a transition system *)

Inductive Request :=
| POST_users (email : option string)
| DELETE_users (userId : string)
| POST_secret (content : JsValue)
| GET_secret_message
| PUT_secret (id : string) (content : JsValue)
| POST_add_friend (receiver_id : option string)
| GET_friend_requests
| POST_friends_accept (requestId : string)
| DELETE_friends (requestId : string)
| GET_friends_messages (friendId : string).

(** Every route lies under [/api/protected], behind [authMiddleware]. *)
Definition serve (x_user_id : option string) (req : Request) (env : Env)
  : Db Response :=
  authMiddleware x_user_id
    (fun userId =>
       match req with
       | POST_users email => postUsers userId email env
       | DELETE_users target => deleteUsers target
       | POST_secret content => postSecret userId content env
       | GET_secret_message => getSecretMessage userId
       | PUT_secret id content => putSecret userId id content env
       | POST_add_friend receiver_id => postAddFriend userId receiver_id env
       | GET_friend_requests => getFriendRequests userId
       | POST_friends_accept requestId => postFriendsAccept userId requestId
       | DELETE_friends requestId => deleteFriends userId requestId
       | GET_friends_messages friendId => getFriendsMessages userId friendId
       end).

(** The answer and the store after a computation that cannot leak an
    exception (every handler catches). *)
Definition answer (m : Db Response) (s : Store) : Response :=
  match fst (m s) with
  | Returned r => r
  | Threw _ => mkResponse 500 None None NoData
  end.

Definition after {A} (m : Db A) (s : Store) : Store := snd (m s).

Inductive reachable : Store -> Prop :=
| reach_init : reachable empty_store
| reach_step s hdr req env :
    reachable s -> reachable (after (serve hdr req env) s).

(** A sequence of requests, served one after the other. *)
Definition Call : Type := option string * Request * Env.

Definition serve_call (c : Call) : Db Response :=
  let '(hdr, req, env) := c in serve hdr req env.

Fixpoint run (calls : list Call) (s : Store) : Store :=
  match calls with
  | [] => s
  | c :: rest => run rest (after (serve_call c) s)
  end.

(** ** Vocabulary of the properties *)

(** The tables agree; the query log may differ. *)
Definition same_rows (s s' : Store) : Prop :=
  users s = users s'
  /\ secretMessages s = secretMessages s'
  /\ friendRequests s = friendRequests s'.


Definition find_secret (id : string) (s : Store) : option SecretMessage :=
  find (fun m => sm_id m =? id) (secretMessages s).

Definition find_request (id : string) (s : Store) : option FriendRequest :=
  find (fun r => fr_id r =? id) (friendRequests s).

(** A content string that is empty or made of whitespace only. *)
Definition blank (c : jsstring) : bool := forallb isWhiteSpace c.

(** Number of edges stored for the ordered pair (sender, receiver). *)
Definition count_pair (sender receiver : string) (s : Store) : nat :=
  length (filter (same_pair sender receiver) (friendRequests s)).

(** At most one edge per ordered (sender_id, receiver_id) pair. *)
Definition edge_pair (r : FriendRequest) : string * string :=
  (fr_sender_id r, fr_receiver_id r).

Definition unique_pair (s : Store) : Prop :=
  NoDup (map edge_pair (friendRequests s)).

(** The friendship check of [GET /friends/messages/:friendId]:
    [friendship.length !== 0]. *)
Definition friendship_found (friendId : string) (s : Store) : bool :=
  match fst (selectFriendship friendId s) with
  | Returned (_ :: _) => true
  | _ => false
  end.

(** The access rule in the words of the specification: an accepted edge
    whose sender is the target and whose receiver is the viewer. *)
Definition canViewFriendSecrets_spec (viewer_id target_id : string)
  (s : Store) : bool :=
  existsb (fun r => (fr_status r =? "accepted")
                    && (fr_sender_id r =? target_id)
                    && (fr_receiver_id r =? viewer_id))
          (friendRequests s).

(** Ids of the secrets an answer of [GET /friends/messages/:friendId]
    discloses. *)
Definition disclosed (r : Response) : list string :=
  match data r with
  | FriendsSecrets l => map fs_secret_message_id l
  | _ => []
  end.

(** Ids of the secrets a user owns. *)
Definition secrets_of (owner : string) (s : Store) : list string :=
  map sm_id (filter (fun m => sm_user_id m =? owner) (secretMessages s)).

(** ** Scenarios *)

Definition at_ (t : Z) (uuid : string) : Env := mkEnv t uuid.

(** Alice and Bob sign up, Alice stores a secret. *)
Definition alice_has_a_secret : Store :=
  run [ (Some "alice", POST_users (Some "alice@example.org"), at_ 1 "u1");
        (Some "bob", POST_users (Some "bob@example.org"), at_ 2 "u2");
        (Some "alice", POST_secret (JString (js "mine")), at_ 3 "s1") ]
      empty_store.

(** Alice, Bob and Carol sign up; Alice asks Bob, Bob accepts. *)
Definition bob_accepted_alice : Store :=
  run [ (Some "alice", POST_users (Some "alice@example.org"), at_ 1 "u1");
        (Some "bob", POST_users (Some "bob@example.org"), at_ 2 "u2");
        (Some "carol", POST_users (Some "carol@example.org"), at_ 3 "u3");
        (Some "alice", POST_add_friend (Some "bob"), at_ 4 "r1");
        (Some "bob", POST_friends_accept "r1", at_ 5 "u5") ]
      empty_store.

(** As above, and Alice and Bob each store a secret. *)
Definition friends_with_secrets : Store :=
  run [ (Some "alice", POST_secret (JString (js "alice's")), at_ 6 "s1");
        (Some "bob", POST_secret (JString (js "bob's")), at_ 7 "s2") ]
      bob_accepted_alice.

(** Alice and Bob sign up; Alice asks Bob, who has not answered. *)
Definition alice_asked_bob : Store :=
  run [ (Some "alice", POST_users (Some "alice@example.org"), at_ 1 "u1");
        (Some "bob", POST_users (Some "bob@example.org"), at_ 2 "u2");
        (Some "alice", POST_add_friend (Some "bob"), at_ 3 "r1") ]
      empty_store.



(** ** Vocabulary of the store invariants *)

(** Primary keys: no two rows of a table carry the same id. *)
Definition primary_keys (s : Store) : Prop :=
  NoDup (map u_id (users s))
  /\ NoDup (map sm_id (secretMessages s))
  /\ NoDup (map fr_id (friendRequests s)).

(** Foreign keys: owners, senders and receivers are registered users. *)
Definition references_hold (s : Store) : Prop :=
  (forall m, In m (secretMessages s) -> user_exists (sm_user_id m) s = true)
  /\ (forall e, In e (friendRequests s) ->
        user_exists (fr_sender_id e) s = true
        /\ user_exists (fr_receiver_id e) s = true).


(** The status column holds ['pending'] or ['accepted']. *)
Definition status_valid (s : Store) : Prop :=
  forall e, In e (friendRequests s) ->
    fr_status e = "pending" \/ fr_status e = "accepted".

(** Stored contents are non-empty and carry no whitespace at either end. *)
Definition contents_trimmed (s : Store) : Prop :=
  forall m, In m (secretMessages s) ->
    sm_content m <> [] /\ trim (sm_content m) = sm_content m.


(** The identity a request runs under, once past the middleware. *)
Definition caller_of (x_user_id : option string) : string :=
  match x_user_id with
  | Some userId => userId
  | None => ""
  end.

(** What one request may do to the tables: nothing, or exactly one of seven
    changes. [change caller s s'] relates the tables before and after. *)
Inductive change (caller : string) (s s' : Store) : Prop :=
| ch_none :
    same_rows s s' -> change caller s s'
| ch_user_created (u : User) :
    u_id u = caller ->
    user_exists caller s = false ->
    users s' = (users s ++ [u])%list ->
    secretMessages s' = secretMessages s ->
    friendRequests s' = friendRequests s ->
    change caller s s'
| ch_user_deleted (target : string) :
    user_exists target s = true ->
    users s' = filter (fun u => negb (u_id u =? target)) (users s) ->
    secretMessages s'
    = filter (fun m => negb (sm_user_id m =? target)) (secretMessages s) ->
    friendRequests s'
    = filter (fun r => negb (fr_sender_id r =? target)
                       && negb (fr_receiver_id r =? target))
             (friendRequests s) ->
    change caller s s'
| ch_secret_created (m : SecretMessage) :
    sm_user_id m = caller ->
    user_exists caller s = true ->
    secret_id_taken (sm_id m) s = false ->
    sm_content m <> [] -> trim (sm_content m) = sm_content m ->
    users s' = users s ->
    secretMessages s' = (secretMessages s ++ [m])%list ->
    friendRequests s' = friendRequests s ->
    change caller s s'
| ch_secret_updated (id : string) (c : jsstring) (t : Z) :
    c <> [] -> trim c = c ->
    users s' = users s ->
    secretMessages s'
    = map (fun m => if sm_id m =? id then set_secret c t m else m)
          (secretMessages s) ->
    friendRequests s' = friendRequests s ->
    change caller s s'
| ch_request_sent (e : FriendRequest) :
    fr_sender_id e = caller ->
    fr_receiver_id e <> caller ->
    fr_status e = "pending" ->
    user_exists (fr_sender_id e) s = true ->
    user_exists (fr_receiver_id e) s = true ->
    request_id_taken (fr_id e) s = false ->
    pair_taken (fr_sender_id e) (fr_receiver_id e) s = false ->
    users s' = users s ->
    secretMessages s' = secretMessages s ->
    friendRequests s' = (friendRequests s ++ [e])%list ->
    change caller s s'
| ch_request_accepted (requestId : string) :
    users s' = users s ->
    secretMessages s' = secretMessages s ->
    friendRequests s'
    = map (fun r => if (fr_id r =? requestId) && (fr_receiver_id r =? caller)
                    then set_status "accepted" r else r)
          (friendRequests s) ->
    change caller s s'
| ch_request_deleted (requestId : string) :
    users s' = users s ->
    secretMessages s' = secretMessages s ->
    friendRequests s'
    = filter (fun r => negb (fr_id r =? requestId)) (friendRequests s) ->
    change caller s s'.

(** * Properties *)

(** Unfolds the operations of the store monad. *)
Ltac db_unfold :=
  unfold try_catch, bind, ret, throw, logQuery, getStore, setUsers,
    setSecretMessages, setFriendRequests in *;
  simpl in *.

(** ** Runs and scenarios *)

Lemma run_reachable calls s : reachable s -> reachable (run calls s).
Proof.
  revert s. induction calls as [|[[hdr req] env] rest IH]; intros s Hs.
  - exact Hs.
  - simpl. apply IH. now constructor.
Qed.

Lemma same_rows_refl s : same_rows s s.
Proof. now repeat split. Qed.

(** The stores of the scenarios are reached from the empty store by
    requests to the routes. *)
Lemma scenarios_reachable :
  reachable alice_has_a_secret
  /\ reachable bob_accepted_alice
  /\ reachable friends_with_secrets
  /\ reachable alice_asked_bob.
Proof.
  assert (B : reachable bob_accepted_alice)
    by (apply run_reachable; constructor).
  repeat split; try exact B; apply run_reachable;
    first [exact B | constructor].
Qed.

(** ** Validation of content *)

Lemma trimStart_blank c : blank c = true -> trimStart c = [].
Proof.
  induction c as [|x c IH]; simpl; [easy|].
  intros H. apply andb_prop in H as [Hx Hc]. now rewrite Hx, IH.
Qed.

Lemma trimStart_nil_blank c : trimStart c = [] -> blank c = true.
Proof.
  induction c as [|x c IH]; simpl; [easy|].
  destruct (isWhiteSpace x); [simpl; exact IH | discriminate].
Qed.

Lemma blank_rev c : blank (rev c) = blank c.
Proof.
  unfold blank. induction c as [|x c IH]; simpl; [easy|].
  rewrite forallb_app, IH. simpl. rewrite andb_true_r. apply andb_comm.
Qed.

Lemma trimStart_head c :
  match trimStart c with
  | [] => True
  | x :: _ => isWhiteSpace x = false
  end.
Proof.
  induction c as [|x c IH]; simpl; [easy|].
  destruct (isWhiteSpace x) eqn:E; [exact IH | exact E].
Qed.

(** [content.trim() === ''] holds exactly for the blank strings. *)
Lemma trim_empty_iff_blank c : is_empty (trim c) = blank c.
Proof.
  destruct (blank c) eqn:B.
  - unfold trim. now rewrite (trimStart_blank c B).
  - unfold trim, trimEnd.
    destruct (rev (trimStart (rev (trimStart c)))) eqn:E; [|easy].
    exfalso.
    apply (f_equal (@rev N)) in E. rewrite rev_involutive in E. simpl in E.
    apply trimStart_nil_blank in E. rewrite blank_rev in E.
    pose proof (trimStart_head c) as H.
    destruct (trimStart c) as [|x l] eqn:T.
    + apply trimStart_nil_blank in T. congruence.
    + simpl in E. rewrite H in E. discriminate.
Qed.

Lemma postSecret_blank userId c env s :
  blank c = true ->
  postSecret userId (JString c) env s
  = (Returned (json 400 false "invalid_request" NoData), s).
Proof.
  intros B. unfold postSecret.
  now rewrite trim_empty_iff_blank, B, orb_true_r.
Qed.

Lemma putSecret_blank userId id c env s :
  blank c = true ->
  putSecret userId id (JString c) env s
  = (Returned (json 400 false "invalid_request" NoData), s).
Proof.
  intros B. unfold putSecret.
  now rewrite trim_empty_iff_blank, B, !orb_true_r.
Qed.

(** C6. For every content string that is empty or consists only of
    whitespace, createSecret ([postSecret]) and updateSecret ([putSecret])
    answer 400 [invalid_request]; the store they return is the store they
    were given, query log included, so no statement was sent and no row was
    inserted or modified. *)
Theorem C6_blank_content_rejected :
  forall (c : jsstring) (userId id : string) (env : Env) (s : Store),
    blank c = true ->
    postSecret userId (JString c) env s
    = (Returned (json 400 false "invalid_request" NoData), s)
    /\ putSecret userId id (JString c) env s
       = (Returned (json 400 false "invalid_request" NoData), s).
Proof.
  intros c userId id env s B. split.
  - now apply postSecret_blank.
  - now apply putSecret_blank.
Qed.

Lemma C6_blank_content_rejected_witness :
  blank (js "  ") = true
  /\ postSecret "alice" (JString (js "  ")) (at_ 9 "s9") alice_has_a_secret
     = (Returned (json 400 false "invalid_request" NoData), alice_has_a_secret)
  /\ putSecret "alice" "s1" (JString (js "  ")) (at_ 9 "s9") alice_has_a_secret
     = (Returned (json 400 false "invalid_request" NoData), alice_has_a_secret).
Proof.
  split; [reflexivity|].
  apply (C6_blank_content_rejected (js "  ") "alice" "s1" (at_ 9 "s9")
           alice_has_a_secret).
  reflexivity.
Defined.

(** ** Friend requests: validation *)


(** ** Identity store *)


Lemma existsb_snoc {A} (p : A -> bool) l x :
  existsb p (l ++ [x]) = existsb p l || p x.
Proof. rewrite existsb_app. simpl. now rewrite orb_false_r. Qed.


(** The first [createUser] for an id that is not registered. *)
Lemma postUsers_created id email env s :
  user_exists id s = false ->
  postUsers id (Some email) env s
  = (Returned (json 201 true "created" (UserData (mkUser id email (now env)))),
     mkStore (users s ++ [mkUser id email (now env)]) (secretMessages s)
             (friendRequests s) (queryLog s ++ [InsertUsers])).
Proof.
  intros H. unfold postUsers, insertUser. db_unfold.
  unfold user_exists in *. simpl. now rewrite H.
Qed.

(** [createUser] for an id that is registered. *)
Lemma postUsers_exists id email env s :
  user_exists id s = true ->
  postUsers id (Some email) env s
  = (Returned (json 200 true "exists" NoData),
     mkStore (users s) (secretMessages s) (friendRequests s)
             (queryLog s ++ [InsertUsers])).
Proof.
  intros H. unfold postUsers, insertUser. db_unfold.
  unfold user_exists in *. simpl. now rewrite H.
Qed.



Lemma filter_nil_existsb {A} (p : A -> bool) l :
  filter p l = [] <-> existsb p l = false.
Proof.
  induction l as [|x l IH]; simpl; [easy|].
  destruct (p x); simpl; [split; discriminate | exact IH].
Qed.


(** [deleteUser] of a registered id. *)
Lemma deleteUsers_deleted userId s :
  user_exists userId s = true ->
  exists u,
    deleteUsers userId s
    = (Returned (json 200 true "deleted" (UserData u)),
       mkStore (filter (fun u => negb (u_id u =? userId)) (users s))
               (filter (fun m => negb (sm_user_id m =? userId))
                       (secretMessages s))
               (filter (fun r => negb (fr_sender_id r =? userId)
                                 && negb (fr_receiver_id r =? userId))
                       (friendRequests s))
               (queryLog s ++ [DeleteUsers])).
Proof.
  intros H. unfold deleteUsers, deleteUser. db_unfold.
  destruct (filter (fun u => u_id u =? userId) (users s)) as [|u l] eqn:F.
  - apply filter_nil_existsb in F. unfold user_exists in H. congruence.
  - now exists u.
Qed.

(** [deleteUser] of an id that is not registered. *)
Lemma deleteUsers_not_found userId s :
  user_exists userId s = false ->
  deleteUsers userId s
  = (Returned (json 404 false "not_found" NoData),
     mkStore (users s) (secretMessages s) (friendRequests s)
             (queryLog s ++ [DeleteUsers])).
Proof.
  intros H. unfold deleteUsers, deleteUser. db_unfold.
  apply filter_nil_existsb in H. now rewrite H.
Qed.



(** ** Reading a friend's secrets: the decision *)

Lemma friendship_found_existsb friendId s :
  friendship_found friendId s
  = existsb (accepted_from friendId) (friendRequests s).
Proof.
  unfold friendship_found, selectFriendship. db_unfold.
  induction (friendRequests s) as [|r l IH]; simpl; [easy|].
  destruct (accepted_from friendId r); simpl; [easy | exact IH].
Qed.

(** The handler answers 401 exactly when the friendship check finds no row,
    and 200 otherwise; the viewer does not enter the check. *)
Lemma getFriendsMessages_decision userId friendId s :
  let r := answer (getFriendsMessages userId friendId) s in
  (friendship_found friendId s = true ->
     code r = 200%Z /\ success r = Some true /\ status r = Some "retrieved")
  /\ (friendship_found friendId s = false ->
        r = json 401 false "Unauthorized" NoData).
Proof.
  unfold friendship_found, answer, getFriendsMessages, selectFriendship,
    selectFriendsSecrets.
  db_unfold.
  destruct (filter (accepted_from friendId) (friendRequests s)); simpl;
    split; intros H; try discriminate; auto.
Qed.




(** ** Friend requests: one edge per ordered pair *)

Lemma NoDup_map_filter {A B} (f : A -> B) (p : A -> bool) l :
  NoDup (map f l) -> NoDup (map f (filter p l)).
Proof.
  induction l as [|x l IH]; simpl; [easy|].
  intros H. inversion H as [|y l' Hn Hl]; subst.
  destruct (p x); simpl; [|now apply IH].
  constructor; [|now apply IH].
  intros Hin. apply Hn. apply in_map_iff in Hin as (z & Hz & Hin).
  apply filter_In in Hin as [Hin _]. rewrite <- Hz. now apply in_map.
Qed.

Lemma edge_pair_set_status (hit : FriendRequest -> bool) st l :
  map edge_pair (map (fun r => if hit r then set_status st r else r) l)
  = map edge_pair l.
Proof.
  rewrite map_map. apply map_ext. intros r. now destruct (hit r).
Qed.

Lemma same_pair_edge_pair a b r :
  same_pair a b r = true <-> edge_pair r = (a, b).
Proof.
  unfold same_pair, edge_pair. rewrite andb_true_iff, !String.eqb_eq.
  split; [intros [-> ->]; reflexivity | intros H; now inversion H].
Qed.

Lemma pair_free_not_in a b l :
  existsb (same_pair a b) l = false -> ~ In (a, b) (map edge_pair l).
Proof.
  intros H Hin. apply in_map_iff in Hin as (r & Hr & Hin).
  apply same_pair_edge_pair in Hr.
  assert (existsb (same_pair a b) l = true)
    by (apply existsb_exists; now exists r).
  congruence.
Qed.

Lemma NoDup_snoc_edge i a b st t l :
  NoDup (map edge_pair l) ->
  existsb (same_pair a b) l = false ->
  NoDup (map edge_pair (l ++ [mkRequest i a b st t])).
Proof.
  intros Hl Hf. rewrite map_app. apply NoDup_app; [exact Hl | |].
  - simpl. constructor; [easy | constructor].
  - intros p Hp [<-|[]]. now apply (pair_free_not_in a b l).
Qed.

Lemma postAddFriend_unique_pair sender receiver_id env s :
  unique_pair s -> unique_pair (after (postAddFriend sender receiver_id env) s).
Proof.
  unfold unique_pair, after, postAddFriend, findFirstFriendRequest,
    insertFriendRequest, request_id_taken, user_exists, pair_taken.
  intros H. destruct receiver_id as [receiver|]; [|exact H].
  destruct (missing (Some receiver) || (receiver =? sender)); [exact H|].
  db_unfold.
  destruct (find (same_pair sender receiver) (friendRequests s)); simpl;
    [exact H|].
  destruct (existsb _ (friendRequests s)); simpl; [exact H|].
  destruct (existsb _ (users s)); simpl; [|exact H].
  destruct (existsb _ (users s)); simpl; [|exact H].
  destruct (existsb (same_pair sender receiver) (friendRequests s)) eqn:P;
    simpl; [exact H|].
  now apply NoDup_snoc_edge.
Qed.

(** Every request preserves the uniqueness of ordered pairs. *)
Lemma serve_unique_pair hdr req env s :
  unique_pair s -> unique_pair (after (serve hdr req env) s).
Proof.
  intros H. unfold serve, authMiddleware.
  destruct hdr as [userId|]; [|exact H].
  destruct (userId =? ""); [exact H|].
  destruct req.
  - unfold unique_pair, after, postUsers, insertUser in *. db_unfold.
    destruct email; [|exact H].
    destruct (user_exists userId _); exact H.
  - unfold unique_pair, after, deleteUsers, deleteUser in *. db_unfold.
    destruct (filter _ (users s)); [exact H|]. simpl.
    now apply NoDup_map_filter.
  - unfold unique_pair, after, postSecret, insertSecretMessage in *.
    destruct content; try exact H.
    destruct ((userId =? "") || is_empty (trim s0)); [exact H|].
    db_unfold.
    destruct (secret_id_taken _ _); [exact H|].
    destruct (user_exists _ _); exact H.
  - unfold unique_pair, after, getSecretMessage, selectSecretMessages in *.
    destruct (userId =? ""); exact H.
  - unfold unique_pair, after, putSecret, updateSecretMessage in *.
    destruct content; try exact H.
    destruct ((userId =? "") || (id =? "") || is_empty (trim s0)); [exact H|].
    db_unfold.
    destruct (filter _ (secretMessages s)); exact H.
  - now apply postAddFriend_unique_pair.
  - exact H.
  - unfold unique_pair, after, postFriendsAccept, updateFriendRequest in *.
    db_unfold. now rewrite edge_pair_set_status.
  - unfold unique_pair, after, deleteFriends, deleteFriendRequest in *.
    db_unfold.
    destruct (filter (fun r => fr_id r =? requestId) (friendRequests s));
      simpl; now apply NoDup_map_filter.
  - unfold unique_pair, after, getFriendsMessages, selectFriendship,
      selectFriendsSecrets in *.
    db_unfold.
    destruct (filter _ (friendRequests s)); exact H.
Qed.

Lemma reachable_unique_pair s : reachable s -> unique_pair s.
Proof.
  induction 1 as [|s hdr req env _ IH].
  - constructor.
  - now apply serve_unique_pair.
Qed.

(** [sendRequest] step by step. *)
Lemma postAddFriend_run A B env s :
  postAddFriend A (Some B) env s
  = if (B =? "") || (B =? A)
    then (Returned (mkResponse 400 None None NoData), s)
    else
      match find (same_pair A B) (friendRequests s) with
      | Some _ =>
          (Returned (mkResponse 409 None None NoData),
           mkStore (users s) (secretMessages s) (friendRequests s)
                   (queryLog s ++ [FindFirstFriendRequests]))
      | None =>
          if request_id_taken (gen_random_uuid env) s
             || negb (user_exists A s) || negb (user_exists B s)
             || pair_taken A B s
          then
            (Returned (mkResponse 500 None None NoData),
             mkStore (users s) (secretMessages s) (friendRequests s)
                     ((queryLog s ++ [FindFirstFriendRequests])
                        ++ [InsertFriendRequests]))
          else
            let row := mkRequest (gen_random_uuid env) A B "pending" (now env) in
            (Returned (mkResponse 200 (Some true) None (RequestData (Some row))),
             mkStore (users s) (secretMessages s) (friendRequests s ++ [row])
                     ((queryLog s ++ [FindFirstFriendRequests])
                        ++ [InsertFriendRequests]))
      end.
Proof.
  unfold postAddFriend, findFirstFriendRequest, insertFriendRequest,
    request_id_taken, user_exists, pair_taken, missing.
  destruct ((B =? "") || (B =? A)); [reflexivity|].
  db_unfold.
  destruct (find (same_pair A B) (friendRequests s)); simpl; [reflexivity|].
  destruct (existsb _ (friendRequests s)); simpl; [reflexivity|].
  destruct (existsb _ (users s)); simpl; [|reflexivity].
  destruct (existsb _ (users s)); simpl; [|reflexivity].
  destruct (existsb (same_pair A B) (friendRequests s)); reflexivity.
Qed.

Lemma find_none_existsb {A} (p : A -> bool) l :
  find p l = None <-> existsb p l = false.
Proof.
  induction l as [|x l IH]; simpl; [easy|].
  destruct (p x); simpl; [split; discriminate | exact IH].
Qed.

Lemma find_snoc_hit {A} (p : A -> bool) l x :
  p x = true -> exists y, find p (l ++ [x]) = Some y.
Proof.
  intros H. induction l as [|z l IH]; simpl.
  - rewrite H. now exists x.
  - destruct (p z); [now exists z | exact IH].
Qed.

Lemma filter_snoc {A} (p : A -> bool) l x :
  filter p (l ++ [x]) = (filter p l ++ (if p x then [x] else []))%list.
Proof. rewrite filter_app. reflexivity. Qed.

Lemma same_pair_refl i a b st t :
  same_pair a b (mkRequest i a b st t) = true.
Proof. unfold same_pair. simpl. now rewrite !String.eqb_refl. Qed.

(** Under the unique index a pair has at most one edge. *)
Lemma unique_pair_count_le a b l :
  NoDup (map edge_pair l) -> (length (filter (same_pair a b) l) <= 1)%nat.
Proof.
  induction l as [|x l IH]; simpl; [lia|].
  intros H. inversion H as [|y l' Hn Hl]; subst.
  destruct (same_pair a b x) eqn:E; [|now apply IH].
  apply same_pair_edge_pair in E. rewrite E in Hn.
  assert (F : filter (same_pair a b) l = []).
  { apply filter_nil_existsb.
    destruct (existsb (same_pair a b) l) eqn:X; [|reflexivity].
    exfalso. apply Hn. apply existsb_exists in X as (r & Hin & Hr).
    apply same_pair_edge_pair in Hr. rewrite <- Hr. now apply in_map. }
  simpl. rewrite F. simpl. lia.
Qed.

Lemma find_some_count {A} (p : A -> bool) l x :
  find p l = Some x -> (1 <= length (filter p l))%nat.
Proof.
  induction l as [|y l IH]; simpl; [discriminate|].
  destruct (p y); simpl; [lia | exact IH].
Qed.

(** The second of two identical requests, when the first was accepted or
    already in conflict. *)
Lemma postAddFriend_twice A B env1 env2 s :
  unique_pair s ->
  let first := postAddFriend A (Some B) env1 in
  let s1 := after first s in
  let second := postAddFriend A (Some B) env2 in
  let s2 := after second s1 in
  code (answer first s) = 200%Z \/ code (answer first s) = 409%Z ->
  answer second s1 = mkResponse 409 None None NoData
  /\ same_rows s1 s2
  /\ count_pair A B s2 = 1%nat.
Proof.
  intros U first s1 second s2. subst first second s2 s1.
  unfold answer, after, count_pair.
  rewrite (postAddFriend_run A B env1 s).
  destruct ((B =? "") || (B =? A)) eqn:V.
  { simpl. intros [H|H]; discriminate. }
  destruct (find (same_pair A B) (friendRequests s)) as [e|] eqn:F.
  - intros _. cbn [fst snd]. rewrite postAddFriend_run, V.
    cbn [friendRequests]. rewrite F. cbn [fst snd friendRequests].
    split; [reflexivity|]. split; [now repeat split|].
    pose proof (unique_pair_count_le A B _ U).
    pose proof (find_some_count _ _ _ F). lia.
  - destruct (request_id_taken _ s || negb (user_exists A s)
              || negb (user_exists B s) || pair_taken A B s).
    { simpl. intros [H|H]; discriminate. }
    intros _. cbn [fst snd]. rewrite postAddFriend_run, V.
    cbn [friendRequests].
    destruct (find_snoc_hit (same_pair A B) (friendRequests s)
                (mkRequest (gen_random_uuid env1) A B "pending" (now env1))
                (same_pair_refl _ A B _ _)) as [y Hy].
    rewrite Hy. cbn [fst snd friendRequests].
    split; [reflexivity|]. split; [now repeat split|].
    rewrite filter_snoc, same_pair_refl, length_app.
    apply find_none_existsb, filter_nil_existsb in F. rewrite F. reflexivity.
Qed.

(** A request between two distinct registered users, with a fresh key, is
    accepted or in conflict: it is not rejected and does not fail. *)
Lemma postAddFriend_accepted_or_conflict A B env s :
  user_exists A s = true -> user_exists B s = true ->
  A <> B -> B <> "" ->
  request_id_taken (gen_random_uuid env) s = false ->
  code (answer (postAddFriend A (Some B) env) s) = 200%Z
  \/ code (answer (postAddFriend A (Some B) env) s) = 409%Z.
Proof.
  intros HA HB Hne Hb Hid. unfold answer.
  rewrite postAddFriend_run.
  apply String.eqb_neq in Hb. rewrite Hb. simpl.
  assert (E : (B =? A) = false) by (apply String.eqb_neq; congruence).
  rewrite E.
  destruct (find (same_pair A B) (friendRequests s)) eqn:F;
    [now right|].
  apply find_none_existsb in F. unfold pair_taken.
  rewrite Hid, HA, HB, F. simpl. now left.
Qed.

(** C8. Sending the same request (A, B) twice: when the first call is
    accepted (200) or meets an existing edge (409) - which is the case for
    two distinct registered users and a fresh key - the second call answers
    409 Conflict, changes no table, and exactly one edge is stored for the
    ordered pair (A, B). In every reachable store there is at most one edge
    per ordered (sender_id, receiver_id) pair. *)
Theorem C8_duplicate_request_conflicts :
  (forall (s : Store) (A B : string) (env1 env2 : Env),
      unique_pair s ->
      user_exists A s = true -> user_exists B s = true ->
      A <> B -> B <> "" ->
      request_id_taken (gen_random_uuid env1) s = false ->
      let first := postAddFriend A (Some B) env1 in
      let s1 := after first s in
      let second := postAddFriend A (Some B) env2 in
      let s2 := after second s1 in
      (code (answer first s) = 200%Z \/ code (answer first s) = 409%Z)
      /\ answer second s1 = mkResponse 409 None None NoData
      /\ same_rows s1 s2
      /\ count_pair A B s2 = 1%nat)
  /\ (forall s : Store, reachable s -> unique_pair s).
Proof.
  split.
  - intros s A B env1 env2 U HA HB Hne Hb Hid first s1 second s2.
    assert (C : code (answer first s) = 200%Z \/ code (answer first s) = 409%Z)
      by now apply postAddFriend_accepted_or_conflict.
    split; [exact C|].
    now apply (postAddFriend_twice A B env1 env2 s U).
  - exact reachable_unique_pair.
Qed.

Lemma C8_duplicate_request_conflicts_witness :
  unique_pair bob_accepted_alice
  /\ user_exists "bob" bob_accepted_alice = true
  /\ user_exists "carol" bob_accepted_alice = true
  /\ "bob" <> "carol" /\ "carol" <> ""
  /\ request_id_taken "r2" bob_accepted_alice = false
  /\ answer (postAddFriend "bob" (Some "carol") (at_ 7 "r3"))
            (after (postAddFriend "bob" (Some "carol") (at_ 6 "r2"))
                   bob_accepted_alice)
     = mkResponse 409 None None NoData
  /\ count_pair "bob" "carol"
       (after (postAddFriend "bob" (Some "carol") (at_ 7 "r3"))
              (after (postAddFriend "bob" (Some "carol") (at_ 6 "r2"))
                     bob_accepted_alice))
     = 1%nat.
Proof.
  assert (U : unique_pair bob_accepted_alice).
  { unfold unique_pair. simpl. constructor; [intros []|constructor]. }
  assert (Hbc : "bob" <> "carol") by discriminate.
  assert (Hc : "carol" <> "") by discriminate.
  split; [exact U|]. split; [reflexivity|]. split; [reflexivity|].
  split; [exact Hbc|]. split; [exact Hc|]. split; [reflexivity|].
  pose proof (proj1 C8_duplicate_request_conflicts bob_accepted_alice
                "bob" "carol" (at_ 6 "r2") (at_ 7 "r3") U eq_refl eq_refl
                Hbc Hc eq_refl) as H.
  cbv zeta in H. destruct H as (_ & H2 & _ & H4).
  split; [exact H2 | exact H4].
Defined.

(** ** Updating a secret: who may write *)

(** The update statement selects by message id alone, so the answer and the
    store after [putSecret] are the same for every authenticated caller. *)
Lemma putSecret_ignores_caller u1 u2 id content env s :
  u1 <> "" -> u2 <> "" ->
  putSecret u1 id content env s = putSecret u2 id content env s.
Proof.
  intros H1 H2. unfold putSecret.
  apply String.eqb_neq in H1, H2. now rewrite H1, H2.
Qed.

Lemma find_map_update {A} (p hit : A -> bool) (f : A -> A) l :
  (forall x, p (f x) = p x) ->
  find p (map (fun x => if hit x then f x else x) l)
  = option_map (fun x => if hit x then f x else x) (find p l).
Proof.
  intros Hp. induction l as [|x l IH]; simpl; [easy|].
  destruct (hit x) eqn:E.
  - rewrite Hp. destruct (p x); simpl; [now rewrite E | exact IH].
  - destruct (p x); simpl; [now rewrite E | exact IH].
Qed.


(** C1 (the code departs from the claim). Alice owns secret [s1]; Bob, who
    does not, sends an update for it. The handler answers 200 [updated]
    instead of 404 and Alice's secret now carries Bob's content and a new
    [updated_at]. *)
Theorem C1_update_by_non_owner_is_applied :
  let put := serve (Some "bob") (PUT_secret "s1" (JString (js "pwned")))
                   (at_ 4 "u4") in
  find_secret "s1" alice_has_a_secret
  = Some (mkSecret "s1" "alice" (js "mine") 3)
  /\ answer put alice_has_a_secret
     = json 200 true "updated"
            (SecretData (mkSecret "s1" "alice" (js "pwned") 4))
  /\ find_secret "s1" (after put alice_has_a_secret)
     = Some (mkSecret "s1" "alice" (js "pwned") 4).
Proof. cbv zeta. repeat split. Qed.

(** ** Reading a friend's secrets: who may read, and what *)

(** An accepted edge from the target to the viewer passes the check. *)
Lemma canView_spec_implies_found viewer target s :
  canViewFriendSecrets_spec viewer target s = true ->
  friendship_found target s = true.
Proof.
  rewrite friendship_found_existsb. unfold canViewFriendSecrets_spec.
  intros H. apply existsb_exists in H as (r & Hin & Hr).
  apply existsb_exists. exists r. split; [exact Hin|].
  apply andb_prop in Hr as [Hr _]. apply andb_prop in Hr as [Ha Hs].
  unfold accepted_from. now rewrite Ha, Hs.
Qed.

(** For an accepted edge (sender = A, receiver = B): B reading A is let
    through; A reading B is refused when B is the sender of no accepted edge. *)
Lemma accepted_edge_direction A B e s :
  In e (friendRequests s) ->
  fr_sender_id e = A -> fr_receiver_id e = B -> fr_status e = "accepted" ->
  code (answer (getFriendsMessages B A) s) = 200%Z
  /\ (existsb (accepted_from B) (friendRequests s) = false ->
      answer (getFriendsMessages A B) s = json 401 false "Unauthorized" NoData).
Proof.
  intros Hin Hs Hr Ha. split.
  - apply (getFriendsMessages_decision B A s).
    apply (canView_spec_implies_found B A).
    apply existsb_exists. exists e. split; [exact Hin|].
    now rewrite Hs, Hr, Ha, !String.eqb_refl.
  - intros H. apply (getFriendsMessages_decision A B s).
    now rewrite friendship_found_existsb.
Qed.

(** C2 (the code departs from the claim). Alice's request to Bob is
    accepted; Carol has no edge with anyone. No accepted edge has Alice as
    sender and Carol as receiver, yet the friendship check run for Carol
    reading Alice finds a row and the request is answered 200 instead of
    401: the check tests the sender and the status, not the receiver. *)
Theorem C2_check_passes_without_edge_to_viewer :
  canViewFriendSecrets_spec "carol" "alice" bob_accepted_alice = false
  /\ friendship_found "alice" bob_accepted_alice = true
  /\ answer (serve (Some "carol") (GET_friends_messages "alice") (at_ 6 "u6"))
            bob_accepted_alice
     = json 200 true "retrieved" (FriendsSecrets []).
Proof. repeat split. Qed.

(** C3 (the code departs from the claim). Alice and Bob are friends (edge
    sender = Alice, receiver = Bob, accepted); Alice owns [s1], Bob owns
    [s2]. Bob reading Alice's secrets is authorized and receives [s1] and,
    with it, Bob's own [s2]: the rows are those of both ends of every accepted
    edge Bob received, not the secrets of the requested friend. Carol, whom
    the check lets through as well, receives none of Alice's secrets. *)
Theorem C3_friend_read_is_not_the_targets_secrets :
  let read viewer :=
    answer (serve (Some viewer) (GET_friends_messages "alice") (at_ 8 "u8"))
           friends_with_secrets in
  secrets_of "alice" friends_with_secrets = ["s1"]
  /\ secrets_of "bob" friends_with_secrets = ["s2"]
  /\ code (read "bob") = 200%Z
  /\ disclosed (read "bob") = ["s1"; "s2"]
  /\ code (read "carol") = 200%Z
  /\ disclosed (read "carol") = [].
Proof. cbv zeta. repeat split. Qed.

(** ** Accepting a friend request *)

(** The handler has no not-found answer: it always answers 200. *)
Lemma postFriendsAccept_always_200 userId requestId s :
  code (answer (postFriendsAccept userId requestId) s) = 200%Z
  /\ success (answer (postFriendsAccept userId requestId) s) = Some true.
Proof. split; reflexivity. Qed.

(** The edge with the given id becomes [accepted] when the caller is its
    receiver and is left as it is otherwise. *)
Lemma postFriendsAccept_edge userId requestId s :
  find_request requestId (after (postFriendsAccept userId requestId) s)
  = option_map
      (fun e => if fr_receiver_id e =? userId then set_status "accepted" e
                else e)
      (find_request requestId s).
Proof.
  unfold find_request, after, postFriendsAccept, updateFriendRequest.
  db_unfold.
  rewrite (find_map_update (fun r => fr_id r =? requestId)
             (fun r => (fr_id r =? requestId) && (fr_receiver_id r =? userId))
             (set_status "accepted")) by reflexivity.
  destruct (find _ (friendRequests s)) as [e|] eqn:F; [|reflexivity].
  simpl. apply find_some in F as [_ F]. now rewrite F.
Qed.

(** A caller who is the receiver of no edge with that id changes nothing. *)
Lemma postFriendsAccept_wrong_party userId requestId s :
  (forall e, In e (friendRequests s) -> fr_id e = requestId ->
             fr_receiver_id e <> userId) ->
  same_rows s (after (postFriendsAccept userId requestId) s)
  /\ data (answer (postFriendsAccept userId requestId) s) = RequestData None.
Proof.
  intros H. unfold after, answer, postFriendsAccept, updateFriendRequest.
  db_unfold.
  assert (N : forall e, In e (friendRequests s) ->
                (fr_id e =? requestId) && (fr_receiver_id e =? userId) = false).
  { intros e Hin. destruct (fr_id e =? requestId) eqn:E; [|reflexivity].
    apply String.eqb_eq in E. apply String.eqb_neq. now apply H. }
  split.
  - repeat split. symmetry.
    rewrite <- (map_id (friendRequests s)) at 2.
    apply map_ext_in. intros e Hin. now rewrite (N e Hin).
  - replace (filter _ (friendRequests s)) with (@nil FriendRequest);
      [reflexivity|].
    symmetry. apply filter_nil_existsb.
    destruct (existsb _ (friendRequests s)) eqn:X; [|reflexivity].
    apply existsb_exists in X as (e & Hin & He).
    rewrite (N e Hin) in He. discriminate.
Qed.

(** C5 (the code departs from the claim). Alice has sent request [r1] to
    Bob. Alice, the wrong party, sends the accept: the edge stays
    [pending], as claimed, but the answer is 200 with [success: true] and no
    data, not a not-found. Bob accepting it makes it [accepted]. *)
Theorem C5_accept_by_wrong_party_answers_success :
  let accept caller :=
    serve (Some caller) (POST_friends_accept "r1") (at_ 4 "u4") in
  find_request "r1" alice_asked_bob
  = Some (mkRequest "r1" "alice" "bob" "pending" 3)
  /\ answer (accept "alice") alice_asked_bob
     = mkResponse 200 (Some true) None (RequestData None)
  /\ find_request "r1" (after (accept "alice") alice_asked_bob)
     = Some (mkRequest "r1" "alice" "bob" "pending" 3)
  /\ find_request "r1" (after (accept "bob") alice_asked_bob)
     = Some (mkRequest "r1" "alice" "bob" "accepted" 3).
Proof. cbv zeta. repeat split. Qed.

(** * Further properties of the handlers *)

(** ** The handlers step by step *)

Lemma postUsers_no_email userId env s :
  postUsers userId None env s
  = (Returned (json 500 false "error" NoData),
     mkStore (users s) (secretMessages s) (friendRequests s)
             (queryLog s ++ [InsertUsers])).
Proof. reflexivity. Qed.

Lemma postSecret_run userId c env s :
  postSecret userId (JString c) env s
  = if (userId =? "") || blank c
    then (Returned (json 400 false "invalid_request" NoData), s)
    else if secret_id_taken (gen_random_uuid env) s
            || negb (user_exists userId s)
    then (Returned (json 500 false "server_error" NoData),
          mkStore (users s) (secretMessages s) (friendRequests s)
                  (queryLog s ++ [InsertSecretMessages]))
    else
      let row := mkSecret (gen_random_uuid env) userId (trim c) (now env) in
      (Returned (json 201 true "created" (SecretData row)),
       mkStore (users s) (secretMessages s ++ [row]) (friendRequests s)
               (queryLog s ++ [InsertSecretMessages])).
Proof.
  unfold postSecret, insertSecretMessage, secret_id_taken, user_exists.
  rewrite trim_empty_iff_blank.
  destruct ((userId =? "") || blank c); [reflexivity|].
  db_unfold.
  destruct (existsb _ (secretMessages s)); simpl; [reflexivity|].
  destruct (existsb _ (users s)); reflexivity.
Qed.

Lemma postSecret_not_a_string userId content env s :
  (forall c, content <> JString c) ->
  postSecret userId content env s
  = (Returned (json 400 false "invalid_request" NoData), s).
Proof.
  intros H. destruct content; try reflexivity. now destruct (H s0).
Qed.

Lemma putSecret_run userId id c env s :
  putSecret userId id (JString c) env s
  = if (userId =? "") || (id =? "") || blank c
    then (Returned (json 400 false "invalid_request" NoData), s)
    else
      (Returned
         match filter (fun m => sm_id m =? id) (secretMessages s) with
         | [] => json 404 false "not_found" NoData
         | m :: _ =>
             json 200 true "updated"
                  (SecretData (set_secret (trim c) (now env) m))
         end,
       mkStore (users s)
               (map (fun m => if sm_id m =? id
                              then set_secret (trim c) (now env) m else m)
                    (secretMessages s))
               (friendRequests s)
               (queryLog s ++ [UpdateSecretMessages])).
Proof.
  unfold putSecret, updateSecretMessage.
  rewrite trim_empty_iff_blank.
  destruct ((userId =? "") || (id =? "") || blank c); [reflexivity|].
  db_unfold.
  destruct (filter _ (secretMessages s)); reflexivity.
Qed.

Lemma putSecret_not_a_string userId id content env s :
  (forall c, content <> JString c) ->
  putSecret userId id content env s
  = (Returned (json 400 false "invalid_request" NoData), s).
Proof.
  intros H. destruct content; try reflexivity. now destruct (H s0).
Qed.

Lemma getSecretMessage_run userId s :
  getSecretMessage userId s
  = if userId =? ""
    then (Returned (json 401 false "unauthorized" NoData), s)
    else
      (Returned (json 200 true "fetched"
                      (SecretList (filter (fun m => sm_user_id m =? userId)
                                          (secretMessages s)))),
       mkStore (users s) (secretMessages s) (friendRequests s)
               (queryLog s ++ [SelectSecretMessages])).
Proof. unfold getSecretMessage. now destruct (userId =? ""). Qed.

Lemma postFriendsAccept_run userId requestId s :
  postFriendsAccept userId requestId s
  = let hit := fun r => (fr_id r =? requestId) && (fr_receiver_id r =? userId) in
    (Returned (mkResponse 200 (Some true) None
                 (RequestData
                    (hd_error (map (set_status "accepted")
                                   (filter hit (friendRequests s)))))),
     mkStore (users s) (secretMessages s)
             (map (fun r => if hit r then set_status "accepted" r else r)
                  (friendRequests s))
             (queryLog s ++ [UpdateFriendRequests])).
Proof. reflexivity. Qed.

Lemma deleteFriends_run userId requestId s :
  deleteFriends userId requestId s
  = (Returned
       match filter (fun r => fr_id r =? requestId) (friendRequests s) with
       | [] => json 404 false "not_found" NoData
       | r :: _ => json 200 true "deleted" (RequestData (Some r))
       end,
     mkStore (users s) (secretMessages s)
             (filter (fun r => negb (fr_id r =? requestId)) (friendRequests s))
             (queryLog s ++ [DeleteFriendRequests])).
Proof.
  unfold deleteFriends, deleteFriendRequest. db_unfold.
  destruct (filter (fun r => fr_id r =? requestId) (friendRequests s));
    reflexivity.
Qed.

Lemma getFriendsMessages_rows userId friendId s :
  same_rows s (after (getFriendsMessages userId friendId) s).
Proof.
  unfold after, getFriendsMessages, selectFriendship, selectFriendsSecrets.
  db_unfold.
  destruct (filter _ (friendRequests s)); now repeat split.
Qed.

Lemma is_empty_false (c : jsstring) : is_empty c = false -> c <> [].
Proof. now destruct c. Qed.

(** ** Trimming *)

Lemma trimStart_fixed l :
  match l with [] => True | x :: _ => isWhiteSpace x = false end ->
  trimStart l = l.
Proof. destruct l as [|x l]; simpl; [easy|]. now intros ->. Qed.

Lemma trimStart_idempotent c : trimStart (trimStart c) = trimStart c.
Proof. apply trimStart_fixed, trimStart_head. Qed.

Lemma trimStart_snoc l x :
  isWhiteSpace x = false ->
  trimStart (l ++ [x])%list = (trimStart l ++ [x])%list.
Proof.
  intros H. induction l as [|y l IH]; simpl.
  - now rewrite H.
  - destruct (isWhiteSpace y); [exact IH | reflexivity].
Qed.

Lemma trimEnd_cons x l :
  isWhiteSpace x = false -> trimEnd (x :: l) = x :: trimEnd l.
Proof.
  intros H. unfold trimEnd. simpl.
  rewrite trimStart_snoc by exact H. rewrite rev_app_distr. reflexivity.
Qed.

Lemma trimEnd_idempotent l : trimEnd (trimEnd l) = trimEnd l.
Proof.
  unfold trimEnd. now rewrite rev_involutive, trimStart_idempotent.
Qed.

Lemma trim_head c :
  match trim c with [] => True | x :: _ => isWhiteSpace x = false end.
Proof.
  unfold trim. pose proof (trimStart_head c) as H.
  destruct (trimStart c) as [|x l]; [exact I|].
  now rewrite trimEnd_cons.
Qed.

Lemma trim_idempotent c : trim (trim c) = trim c.
Proof.
  unfold trim at 1. rewrite (trimStart_fixed (trim c)) by apply trim_head.
  unfold trim. apply trimEnd_idempotent.
Qed.

(** ** What a request can do to the tables *)

Lemma serve_change hdr req env s :
  change (caller_of hdr) s (after (serve hdr req env) s).
Proof.
  unfold serve, authMiddleware, after.
  destruct hdr as [userId|]; [|apply ch_none; now repeat split].
  destruct (userId =? "") eqn:Hu; [apply ch_none; now repeat split|].
  simpl caller_of. destruct req.
  - destruct email as [e|].
    + destruct (user_exists userId s) eqn:X.
      * rewrite postUsers_exists by exact X. apply ch_none; now repeat split.
      * rewrite postUsers_created by exact X.
        now apply (ch_user_created _ _ _ (mkUser userId e (now env))).
    + apply ch_none; now repeat split.
  - destruct (user_exists userId0 s) eqn:X.
    + destruct (deleteUsers_deleted userId0 s X) as [u E]. rewrite E.
      now apply (ch_user_deleted _ _ _ userId0).
    + rewrite deleteUsers_not_found by exact X.
      apply ch_none; now repeat split.
  - destruct content as [| |b|n|c|];
      try (apply ch_none; now repeat split).
    rewrite postSecret_run, Hu. simpl.
    destruct (blank c) eqn:B; [apply ch_none; now repeat split|].
    destruct (secret_id_taken (gen_random_uuid env) s) eqn:T;
      [apply ch_none; now repeat split|].
    destruct (user_exists userId s) eqn:X;
      [|apply ch_none; now repeat split].
    simpl.
    apply (ch_secret_created _ _ _
             (mkSecret (gen_random_uuid env) userId (trim c) (now env)));
      simpl; auto.
    + apply is_empty_false. now rewrite trim_empty_iff_blank.
    + apply trim_idempotent.
  - rewrite getSecretMessage_run, Hu. apply ch_none; now repeat split.
  - destruct content as [| |b|n|c|];
      try (apply ch_none; now repeat split).
    rewrite putSecret_run, Hu. simpl.
    destruct ((id =? "") || blank c) eqn:B; [apply ch_none; now repeat split|].
    apply orb_false_iff in B as [_ B].
    apply (ch_secret_updated _ _ _ id (trim c) (now env)); simpl; auto.
    + apply is_empty_false. now rewrite trim_empty_iff_blank.
    + apply trim_idempotent.
  - destruct receiver_id as [B|]; [|apply ch_none; now repeat split].
    rewrite postAddFriend_run.
    destruct ((B =? "") || (B =? userId)) eqn:V;
      [apply ch_none; now repeat split|].
    apply orb_false_iff in V as [_ V]. apply String.eqb_neq in V.
    destruct (find (same_pair userId B) (friendRequests s));
      [apply ch_none; now repeat split|].
    destruct (request_id_taken (gen_random_uuid env) s) eqn:T;
      [apply ch_none; now repeat split|].
    destruct (user_exists userId s) eqn:XA;
      [|apply ch_none; now repeat split].
    destruct (user_exists B s) eqn:XB;
      [|apply ch_none; now repeat split].
    destruct (pair_taken userId B s) eqn:P;
      [apply ch_none; now repeat split|].
    simpl.
    now apply (ch_request_sent _ _ _
                 (mkRequest (gen_random_uuid env) userId B "pending" (now env))).
  - apply ch_none; now repeat split.
  - rewrite postFriendsAccept_run.
    now apply (ch_request_accepted _ _ _ requestId).
  - rewrite deleteFriends_run.
    now apply (ch_request_deleted _ _ _ requestId).
  - apply ch_none. apply getFriendsMessages_rows.
Qed.

(** ** Invariants of the store *)

Lemma existsb_false_not_in {A} (f : A -> string) id l :
  existsb (fun x => f x =? id) l = false -> ~ In id (map f l).
Proof.
  intros H Hin. apply in_map_iff in Hin as (x & Hx & Hin).
  assert (existsb (fun x => f x =? id) l = true).
  { apply existsb_exists. exists x. split; [exact Hin|].
    now apply String.eqb_eq. }
  congruence.
Qed.

Lemma NoDup_map_snoc {A} (f : A -> string) l x :
  NoDup (map f l) -> existsb (fun y => f y =? f x) l = false ->
  NoDup (map f (l ++ [x])).
Proof.
  intros Hl Hx. rewrite map_app. apply NoDup_app; [exact Hl | |].
  - simpl. constructor; [easy | constructor].
  - intros y Hy [<-|[]]. now apply (existsb_false_not_in f (f x) l).
Qed.

Lemma map_update_same {A B} (g : A -> B) (hit : A -> bool) (f : A -> A) l :
  (forall x, g (f x) = g x) ->
  map g (map (fun x => if hit x then f x else x) l) = map g l.
Proof.
  intros H. rewrite map_map. apply map_ext. intros x.
  now destruct (hit x).
Qed.

Lemma primary_keys_change caller s s' :
  primary_keys s -> change caller s s' -> primary_keys s'.
Proof.
  intros (Hu & Hm & Hr) C. unfold primary_keys.
  destruct C as [(Eu & Em & Er) | u Hid X Eu Em Er | target X Eu Em Er
                 | m Ho X T Hc Ht Eu Em Er | id c t Hc Ht Eu Em Er
                 | e Hs Hne Hst XA XB T P Eu Em Er | rid Eu Em Er
                 | rid Eu Em Er].
  - now rewrite <- Eu, <- Em, <- Er.
  - rewrite Eu, Em, Er. repeat split; try assumption.
    apply NoDup_map_snoc; [exact Hu|]. now rewrite Hid.
  - rewrite Eu, Em, Er. repeat split; now apply NoDup_map_filter.
  - rewrite Eu, Em, Er. repeat split; try assumption.
    now apply NoDup_map_snoc.
  - rewrite Eu, Em, Er. repeat split; try assumption.
    now rewrite map_update_same.
  - rewrite Eu, Em, Er. repeat split; try assumption.
    now apply NoDup_map_snoc.
  - rewrite Eu, Em, Er. repeat split; try assumption.
    now rewrite map_update_same.
  - rewrite Eu, Em, Er. repeat split; try assumption.
    now apply NoDup_map_filter.
Qed.

Lemma user_exists_ext id s s' :
  users s' = users s -> user_exists id s' = user_exists id s.
Proof. unfold user_exists. now intros ->. Qed.

Lemma user_exists_survives id target l :
  existsb (fun u => u_id u =? id) l = true -> id <> target ->
  existsb (fun u => u_id u =? id)
          (filter (fun u => negb (u_id u =? target)) l) = true.
Proof.
  intros H Hne. apply existsb_exists in H as (u & Hin & Hu).
  apply existsb_exists. exists u. split; [|exact Hu].
  apply filter_In. split; [exact Hin|].
  apply String.eqb_eq in Hu. rewrite Hu.
  apply negb_true_iff. now apply String.eqb_neq.
Qed.

Lemma in_map_update {A} (hit : A -> bool) (f : A -> A) l y :
  In y (map (fun x => if hit x then f x else x) l) ->
  exists x, In x l /\ (y = x \/ (hit x = true /\ y = f x)).
Proof.
  intros H. apply in_map_iff in H as (x & <- & Hin).
  exists x. split; [exact Hin|]. destruct (hit x); auto.
Qed.

Lemma references_hold_change caller s s' :
  references_hold s -> change caller s s' -> references_hold s'.
Proof.
  intros (Hm & Hr) C.
  destruct C as [(Eu & Em & Er) | u Hid X Eu Em Er | target X Eu Em Er
                 | m Ho X T Hc Ht Eu Em Er | id c t Hc Ht Eu Em Er
                 | e Hs Hne Hst XA XB T P Eu Em Er | rid Eu Em Er
                 | rid Eu Em Er]; unfold references_hold.
  - rewrite <- Em, <- Er. split; intros x Hx.
    + rewrite (user_exists_ext _ s s') by (symmetry; exact Eu). now apply Hm.
    + rewrite !(user_exists_ext _ s s') by (symmetry; exact Eu). now apply Hr.
  - assert (G : forall id, user_exists id s = true -> user_exists id s' = true).
    { intros id H. unfold user_exists in *.
      rewrite Eu, existsb_app, H. reflexivity. }
    rewrite Em, Er. split; intros x Hx.
    + now apply G, Hm.
    + destruct (Hr x Hx). split; now apply G.
  - assert (G : forall id, user_exists id s = true -> id <> target ->
                           user_exists id s' = true).
    { intros id H Hne. unfold user_exists in *. rewrite Eu.
      now apply user_exists_survives. }
    rewrite Em, Er. split; intros x Hx; apply filter_In in Hx as [Hin Hx].
    + apply G; [now apply Hm|].
      apply negb_true_iff, String.eqb_neq in Hx. exact Hx.
    + apply andb_prop in Hx as [H1 H2].
      apply negb_true_iff, String.eqb_neq in H1.
      apply negb_true_iff, String.eqb_neq in H2.
      destruct (Hr x Hin). split; now apply G.
  - rewrite Em, Er. split; intros x Hx.
    + rewrite (user_exists_ext _ s s') by exact Eu.
      apply in_app_iff in Hx as [Hx|[<-|[]]]; [now apply Hm|].
      now rewrite Ho.
    + rewrite !(user_exists_ext _ s s') by exact Eu. now apply Hr.
  - rewrite Em, Er. split; intros x Hx.
    + rewrite (user_exists_ext _ s s') by exact Eu.
      apply in_map_update in Hx as (m & Hin & [->|[_ ->]]); simpl;
        now apply Hm.
    + rewrite !(user_exists_ext _ s s') by exact Eu. now apply Hr.
  - rewrite Em, Er. split; intros x Hx.
    + rewrite (user_exists_ext _ s s') by exact Eu. now apply Hm.
    + rewrite !(user_exists_ext _ s s') by exact Eu.
      apply in_app_iff in Hx as [Hx|[<-|[]]]; [now apply Hr | now split].
  - rewrite Em, Er. split; intros x Hx.
    + rewrite (user_exists_ext _ s s') by exact Eu. now apply Hm.
    + rewrite !(user_exists_ext _ s s') by exact Eu.
      apply in_map_update in Hx as (e & Hin & [->|[_ ->]]); simpl;
        now apply Hr.
  - rewrite Em, Er. split; intros x Hx.
    + rewrite (user_exists_ext _ s s') by exact Eu. now apply Hm.
    + rewrite !(user_exists_ext _ s s') by exact Eu.
      apply filter_In in Hx as [Hin _]. now apply Hr.
Qed.

(** Every edge after a request is an edge from before, the accepted form of
    an edge the caller received, or a new pending edge the caller sent to
    someone else. *)
Lemma change_edges caller s s' e' :
  change caller s s' -> In e' (friendRequests s') ->
  In e' (friendRequests s)
  \/ (exists e, In e (friendRequests s) /\ fr_receiver_id e = caller
                /\ e' = set_status "accepted" e)
  \/ (fr_sender_id e' = caller /\ fr_receiver_id e' <> caller
      /\ fr_status e' = "pending").
Proof.
  intros C Hin.
  destruct C as [(Eu & Em & Er) | u Hid X Eu Em Er | target X Eu Em Er
                 | m Ho X T Hc Ht Eu Em Er | id c t Hc Ht Eu Em Er
                 | e Hs Hne Hst XA XB T P Eu Em Er | rid Eu Em Er
                 | rid Eu Em Er];
    try (left; congruence).
  - rewrite Er in Hin. apply filter_In in Hin as [Hin _]. now left.
  - rewrite Er in Hin. apply in_app_iff in Hin as [Hin|[<-|[]]]; [now left|].
    right; right. auto.
  - rewrite Er in Hin.
    apply in_map_update in Hin as (e & Hin & [->|[Hh ->]]); [now left|].
    right; left. exists e. apply andb_prop in Hh as [_ Hh].
    apply String.eqb_eq in Hh. auto.
  - rewrite Er in Hin. apply filter_In in Hin as [Hin _]. now left.
Qed.

(** Every secret after a request is a secret from before, a secret from
    before with new content and date (same id, same owner), or a new secret
    owned by the caller; its content is trimmed and not empty in the last
    two cases. *)
Lemma change_secrets caller s s' m' :
  change caller s s' -> In m' (secretMessages s') ->
  In m' (secretMessages s)
  \/ ((exists m, In m (secretMessages s) /\ sm_id m' = sm_id m
                 /\ sm_user_id m' = sm_user_id m)
      /\ sm_content m' <> [] /\ trim (sm_content m') = sm_content m')
  \/ (sm_user_id m' = caller
      /\ sm_content m' <> [] /\ trim (sm_content m') = sm_content m').
Proof.
  intros C Hin.
  destruct C as [(Eu & Em & Er) | u Hid X Eu Em Er | target X Eu Em Er
                 | m Ho X T Hc Ht Eu Em Er | id c t Hc Ht Eu Em Er
                 | e Hs Hne Hst XA XB T P Eu Em Er | rid Eu Em Er
                 | rid Eu Em Er];
    try (left; congruence).
  - rewrite Em in Hin. apply filter_In in Hin as [Hin _]. now left.
  - rewrite Em in Hin. apply in_app_iff in Hin as [Hin|[<-|[]]]; [now left|].
    right; right. auto.
  - rewrite Em in Hin.
    apply in_map_update in Hin as (m & Hin & [->|[_ ->]]); [now left|].
    right; left. split; [exists m; auto | auto].
Qed.


Lemma status_valid_change caller s s' :
  status_valid s -> change caller s s' -> status_valid s'.
Proof.
  intros H C e' Hin.
  destruct (change_edges caller s s' e' C Hin)
    as [Hold | [(e & He & _ & ->) | (_ & _ & Hp)]].
  - now apply H.
  - now right.
  - now left.
Qed.

Lemma contents_trimmed_change caller s s' :
  contents_trimmed s -> change caller s s' -> contents_trimmed s'.
Proof.
  intros H C m' Hin.
  destruct (change_secrets caller s s' m' C Hin)
    as [Hold | [(_ & Hc) | (_ & Hc)]]; [now apply H | exact Hc | exact Hc].
Qed.

(** An invariant of [change] that holds of the empty store holds of every
    reachable store. *)
Lemma reachable_invariant (P : Store -> Prop) :
  P empty_store ->
  (forall caller s s', P s -> change caller s s' -> P s') ->
  forall s, reachable s -> P s.
Proof.
  intros H0 Hstep s R. induction R as [|s hdr req env _ IH]; [exact H0|].
  apply (Hstep (caller_of hdr) s); [exact IH | apply serve_change].
Qed.

(** X4. In every reachable store no two users, no two secrets and no two
    friend requests carry the same id. *)
Theorem reachable_primary_keys :
  forall s : Store, reachable s -> primary_keys s.
Proof.
  apply reachable_invariant.
  - repeat split; constructor.
  - exact primary_keys_change.
Qed.

Lemma reachable_primary_keys_witness :
  reachable friends_with_secrets /\ primary_keys friends_with_secrets.
Proof.
  assert (R : reachable friends_with_secrets)
    by (apply run_reachable, run_reachable; constructor).
  split; [exact R | exact (reachable_primary_keys friends_with_secrets R)].
Defined.

(** X5. In every reachable store the owner of every secret and the sender
    and receiver of every friend request are registered users. *)
Theorem reachable_references_hold :
  forall s : Store, reachable s -> references_hold s.
Proof.
  apply reachable_invariant.
  - split; intros x [].
  - exact references_hold_change.
Qed.

Lemma reachable_references_hold_witness :
  reachable friends_with_secrets /\ references_hold friends_with_secrets.
Proof.
  assert (R : reachable friends_with_secrets)
    by (apply run_reachable, run_reachable; constructor).
  split; [exact R | exact (reachable_references_hold friends_with_secrets R)].
Defined.



(** X7. In every reachable store the status of every friend request is
    ['pending'] or ['accepted']. *)
Theorem reachable_status_valid :
  forall s : Store, reachable s -> status_valid s.
Proof.
  apply reachable_invariant.
  - intros e [].
  - exact status_valid_change.
Qed.

Lemma reachable_status_valid_witness :
  reachable bob_accepted_alice /\ status_valid bob_accepted_alice.
Proof.
  assert (R : reachable bob_accepted_alice)
    by (apply run_reachable; constructor).
  split; [exact R | exact (reachable_status_valid bob_accepted_alice R)].
Defined.

(** X8. In every reachable store the content of every secret is non-empty
    and already trimmed: trimming it again gives the same string. *)
Theorem reachable_contents_trimmed :
  forall s : Store, reachable s -> contents_trimmed s.
Proof.
  apply reachable_invariant.
  - intros m [].
  - exact contents_trimmed_change.
Qed.

Lemma reachable_contents_trimmed_witness :
  reachable friends_with_secrets /\ contents_trimmed friends_with_secrets.
Proof.
  assert (R : reachable friends_with_secrets)
    by (apply run_reachable, run_reachable; constructor).
  split; [exact R | exact (reachable_contents_trimmed friends_with_secrets R)].
Defined.

(** ** Failures and reads *)

Lemma map_update_no_hit {A} (hit : A -> bool) (f : A -> A) l :
  filter hit l = [] -> map (fun x => if hit x then f x else x) l = l.
Proof.
  induction l as [|x l IH]; simpl; [easy|].
  destruct (hit x); [discriminate|]. intros H. now rewrite IH.
Qed.

Lemma filter_negb_no_hit {A} (hit : A -> bool) l :
  filter hit l = [] -> filter (fun x => negb (hit x)) l = l.
Proof.
  induction l as [|x l IH]; simpl; [easy|].
  destruct (hit x); [discriminate|]. intros H. simpl. now rewrite IH.
Qed.

(** X1. A request that is not answered 200 or 201 changes no row of any
    table, whatever the route: rejected, unauthorized, not-found, conflict
    and failed statements leave the data as it was. *)
Theorem failed_request_changes_no_row :
  forall (hdr : option string) (req : Request) (env : Env) (s : Store),
    code (answer (serve hdr req env) s) <> 200%Z ->
    code (answer (serve hdr req env) s) <> 201%Z ->
    same_rows s (after (serve hdr req env) s).
Proof.
  intros hdr req env s. unfold serve, authMiddleware, answer, after.
  destruct hdr as [userId|]; [|now repeat split].
  destruct (userId =? "") eqn:Hu; [now repeat split|].
  destruct req.
  - destruct email as [e|]; [|now repeat split].
    destruct (user_exists userId s) eqn:X.
    + rewrite postUsers_exists by exact X. simpl. congruence.
    + rewrite postUsers_created by exact X. simpl. congruence.
  - destruct (user_exists userId0 s) eqn:X.
    + destruct (deleteUsers_deleted userId0 s X) as [u E]. rewrite E.
      simpl. congruence.
    + rewrite deleteUsers_not_found by exact X. now repeat split.
  - destruct content as [| |b|n|c|]; try now repeat split.
    rewrite postSecret_run, Hu. simpl.
    destruct (blank c); [now repeat split|].
    destruct (secret_id_taken (gen_random_uuid env) s || negb (user_exists userId s));
      simpl; [now repeat split | congruence].
  - rewrite getSecretMessage_run, Hu. now repeat split.
  - destruct content as [| |b|n|c|]; try now repeat split.
    rewrite putSecret_run, Hu. simpl.
    destruct ((id =? "") || blank c); [now repeat split|].
    simpl.
    destruct (filter (fun m => sm_id m =? id) (secretMessages s)) eqn:F;
      simpl; [|congruence].
    intros _ _. repeat split. simpl. symmetry.
    now apply (map_update_no_hit (fun m => sm_id m =? id)).
  - destruct receiver_id as [B|]; [|now repeat split].
    rewrite postAddFriend_run.
    destruct ((B =? "") || (B =? userId)); [now repeat split|].
    destruct (find (same_pair userId B) (friendRequests s));
      [now repeat split|].
    destruct (request_id_taken (gen_random_uuid env) s
              || negb (user_exists userId s) || negb (user_exists B s)
              || pair_taken userId B s);
      simpl; [now repeat split | congruence].
  - now repeat split.
  - rewrite postFriendsAccept_run. simpl. congruence.
  - rewrite deleteFriends_run. simpl.
    destruct (filter (fun r => fr_id r =? requestId) (friendRequests s)) eqn:F;
      simpl; [|congruence].
    intros _ _. repeat split. simpl. symmetry.
    now apply (filter_negb_no_hit (fun r => fr_id r =? requestId)).
  - intros _ _. apply getFriendsMessages_rows.
Qed.

Lemma failed_request_changes_no_row_witness :
  code (answer (serve (Some "carol") (PUT_secret "s9" (JString (js "x")))
                      (at_ 9 "u9")) friends_with_secrets) = 404%Z
  /\ same_rows friends_with_secrets
       (after (serve (Some "carol") (PUT_secret "s9" (JString (js "x")))
                     (at_ 9 "u9")) friends_with_secrets).
Proof.
  split; [reflexivity|].
  apply (failed_request_changes_no_row (Some "carol")
           (PUT_secret "s9" (JString (js "x"))) (at_ 9 "u9")
           friends_with_secrets); discriminate.
Defined.

(** X2. A request without identity (no [x-user-id] header, or an empty one)
    is answered 401 by the middleware, and a request answered 400 was
    stopped by the handler's validation: in both cases the store is returned
    as it was given, query log included, so no statement reached the
    store. *)
Theorem rejected_request_sends_no_statement :
  forall (hdr : option string) (req : Request) (env : Env) (s : Store),
    (caller_of hdr = "" ->
     serve hdr req env s = (Returned (mkResponse 401 None None NoData), s))
    /\ (code (answer (serve hdr req env) s) = 400%Z ->
        after (serve hdr req env) s = s).
Proof.
  intros hdr req env s. split.
  - unfold serve, authMiddleware. destruct hdr as [u|]; [|reflexivity].
    simpl. now intros ->.
  - unfold serve, authMiddleware, answer, after.
    destruct hdr as [userId|]; [|reflexivity].
    destruct (userId =? "") eqn:Hu; [reflexivity|].
    destruct req.
    + destruct email as [e|]; [|discriminate].
      destruct (user_exists userId s) eqn:X.
      * rewrite postUsers_exists by exact X. discriminate.
      * rewrite postUsers_created by exact X. discriminate.
    + destruct (user_exists userId0 s) eqn:X.
      * destruct (deleteUsers_deleted userId0 s X) as [u E]. rewrite E.
        discriminate.
      * rewrite deleteUsers_not_found by exact X. discriminate.
    + destruct content as [| |b|n|c|]; try reflexivity.
      rewrite postSecret_run, Hu. simpl.
      destruct (blank c); [reflexivity|].
      destruct (secret_id_taken (gen_random_uuid env) s
                || negb (user_exists userId s)); discriminate.
    + rewrite getSecretMessage_run, Hu. discriminate.
    + destruct content as [| |b|n|c|]; try reflexivity.
      rewrite putSecret_run, Hu. simpl.
      destruct ((id =? "") || blank c); [reflexivity|].
      simpl. destruct (filter _ (secretMessages s)); discriminate.
    + destruct receiver_id as [B|]; [|reflexivity].
      rewrite postAddFriend_run.
      destruct ((B =? "") || (B =? userId)); [reflexivity|].
      destruct (find (same_pair userId B) (friendRequests s)); [discriminate|].
      destruct (request_id_taken (gen_random_uuid env) s
                || negb (user_exists userId s) || negb (user_exists B s)
                || pair_taken userId B s); discriminate.
    + discriminate.
    + discriminate.
    + rewrite deleteFriends_run. simpl.
      destruct (filter _ (friendRequests s)); discriminate.
    + unfold getFriendsMessages, selectFriendship, selectFriendsSecrets.
      db_unfold. destruct (filter _ (friendRequests s)); discriminate.
Qed.

Lemma rejected_request_sends_no_statement_witness :
  caller_of (Some "") = ""
  /\ serve (Some "") (DELETE_users "alice") (at_ 9 "u9") friends_with_secrets
     = (Returned (mkResponse 401 None None NoData), friends_with_secrets)
  /\ code (answer (serve (Some "bob") (POST_secret (JNumber 7)) (at_ 9 "u9"))
                  friends_with_secrets) = 400%Z
  /\ after (serve (Some "bob") (POST_secret (JNumber 7)) (at_ 9 "u9"))
           friends_with_secrets = friends_with_secrets.
Proof.
  split; [reflexivity|]. split.
  - apply (rejected_request_sends_no_statement (Some "")
             (DELETE_users "alice") (at_ 9 "u9") friends_with_secrets).
    reflexivity.
  - split; [reflexivity|].
    apply (rejected_request_sends_no_statement (Some "bob")
             (POST_secret (JNumber 7)) (at_ 9 "u9") friends_with_secrets).
    reflexivity.
Defined.

(** X3. The three read routes never change a row, whoever calls them and
    whatever they answer. *)
Theorem read_routes_change_no_row :
  forall (hdr : option string) (friendId : string) (env : Env) (s : Store),
    same_rows s (after (serve hdr GET_secret_message env) s)
    /\ same_rows s (after (serve hdr GET_friend_requests env) s)
    /\ same_rows s (after (serve hdr (GET_friends_messages friendId) env) s).
Proof.
  intros hdr friendId env s. unfold serve, authMiddleware, after.
  destruct hdr as [userId|]; [|now repeat split].
  destruct (userId =? "") eqn:Hu; [now repeat split|].
  split; [|split].
  - rewrite getSecretMessage_run, Hu. now repeat split.
  - now repeat split.
  - apply getFriendsMessages_rows.
Qed.

(** ** What a request can do to a row *)

Lemma find_absent {A} (f : A -> string) (p : A -> bool) i l :
  ~ In i (map f l) -> find (fun x => f x =? i) (filter p l) = None.
Proof.
  intros H. apply find_none_existsb.
  destruct (existsb _ (filter p l)) eqn:X; [|reflexivity].
  exfalso. apply H. apply existsb_exists in X as (x & Hin & Hx).
  apply filter_In in Hin as [Hin _]. apply String.eqb_eq in Hx.
  rewrite <- Hx. now apply in_map.
Qed.

(** Under a primary key, looking a row up after a filter. *)
Lemma find_filter_unique {A} (f : A -> string) (p : A -> bool) i l x :
  NoDup (map f l) -> find (fun x => f x =? i) l = Some x ->
  find (fun x => f x =? i) (filter p l) = if p x then Some x else None.
Proof.
  induction l as [|y l IH]; simpl; [discriminate|].
  intros N. inversion N as [|z l' Hn Hl]; subst.
  destruct (f y =? i) eqn:E.
  - intros [= ->]. apply String.eqb_eq in E. rewrite E in Hn.
    destruct (p x) eqn:P; simpl.
    + apply String.eqb_eq in E. now rewrite E.
    + now apply find_absent.
  - intros H. destruct (p y); simpl; [rewrite E|]; now apply IH.
Qed.

Lemma find_app_some {A} (p : A -> bool) l l' x :
  find p l = Some x -> find p (l ++ l') = Some x.
Proof.
  induction l as [|y l IH]; simpl; [discriminate|].
  destruct (p y); [easy | exact IH].
Qed.

Lemma set_status_same e :
  fr_status e = "accepted" -> set_status "accepted" e = e.
Proof. destruct e. simpl. now intros ->. Qed.

Lemma change_edge_lifecycle caller s s' i e :
  primary_keys s -> change caller s s' ->
  find_request i s = Some e ->
  find_request i s' = None
  \/ find_request i s' = Some e
  \/ (fr_receiver_id e = caller
      /\ find_request i s' = Some (set_status "accepted" e)).
Proof.
  intros (_ & _ & K) C F. unfold find_request in *.
  destruct C as [(Eu & Em & Er) | u Hid X Eu Em Er | target X Eu Em Er
                 | m Ho X T Hc Ht Eu Em Er | id c t Hc Ht Eu Em Er
                 | x Hs Hne Hst XA XB T P Eu Em Er | rid Eu Em Er
                 | rid Eu Em Er];
    try (right; left; congruence).
  - rewrite Er, (find_filter_unique fr_id _ i _ e K F).
    destruct (_ && _); auto.
  - rewrite Er. right; left. now apply find_app_some.
  - rewrite Er.
    rewrite (find_map_update (fun r => fr_id r =? i) _ (set_status "accepted"))
      by reflexivity.
    rewrite F. simpl.
    destruct ((fr_id e =? rid) && (fr_receiver_id e =? caller)) eqn:H; auto.
    apply andb_prop in H as [_ H]. apply String.eqb_eq in H. auto.
  - rewrite Er, (find_filter_unique fr_id _ i _ e K F).
    destruct (negb _); auto.
Qed.

(** X9. The life of an edge. Under the primary keys, after any request the
    edge with a given id is gone, is unchanged, or - only when the caller is
    its receiver - has become accepted with the same id, sender, receiver
    and date. Hence an accepted edge never returns to pending. *)
Theorem edge_lifecycle :
  forall (hdr : option string) (req : Request) (env : Env) (s : Store)
         (i : string) (e : FriendRequest),
    primary_keys s ->
    find_request i s = Some e ->
    let s' := after (serve hdr req env) s in
    (find_request i s' = None
     \/ find_request i s' = Some e
     \/ (fr_receiver_id e = caller_of hdr
         /\ find_request i s' = Some (set_status "accepted" e)))
    /\ (fr_status e = "accepted" ->
        find_request i s' = None \/ find_request i s' = Some e).
Proof.
  intros hdr req env s i e K F s'.
  pose proof (change_edge_lifecycle (caller_of hdr) s s' i e K
                (serve_change hdr req env s) F) as H.
  split; [exact H|].
  intros A. destruct H as [H|[H|[_ H]]]; auto.
  rewrite (set_status_same e A) in H. auto.
Qed.

Lemma edge_lifecycle_witness :
  primary_keys bob_accepted_alice
  /\ find_request "r1" bob_accepted_alice
     = Some (mkRequest "r1" "alice" "bob" "accepted" 4)
  /\ (find_request "r1"
        (after (serve (Some "bob") (POST_friends_accept "r1") (at_ 9 "u9"))
               bob_accepted_alice) = None
      \/ find_request "r1"
           (after (serve (Some "bob") (POST_friends_accept "r1") (at_ 9 "u9"))
                  bob_accepted_alice)
         = Some (mkRequest "r1" "alice" "bob" "accepted" 4)).
Proof.
  assert (K : primary_keys bob_accepted_alice).
  { repeat split; simpl; repeat constructor; simpl; intuition discriminate. }
  split; [exact K|]. split; [reflexivity|].
  apply (edge_lifecycle (Some "bob") (POST_friends_accept "r1") (at_ 9 "u9")
           bob_accepted_alice "r1" _ K eq_refl).
  reflexivity.
Defined.



(** X11. Who can create or change a secret. Every secret stored after a
    request was stored before, or has the id and the owner of a secret
    stored before (its content was replaced), or is owned by the caller;
    in the last two cases its content is trimmed and not empty. No request
    moves a secret to another owner. *)
Theorem secrets_after_request :
  forall (hdr : option string) (req : Request) (env : Env) (s : Store)
         (m' : SecretMessage),
    In m' (secretMessages (after (serve hdr req env) s)) ->
    In m' (secretMessages s)
    \/ ((exists m, In m (secretMessages s) /\ sm_id m' = sm_id m
                   /\ sm_user_id m' = sm_user_id m)
        /\ sm_content m' <> [] /\ trim (sm_content m') = sm_content m')
    \/ (sm_user_id m' = caller_of hdr
        /\ sm_content m' <> [] /\ trim (sm_content m') = sm_content m').
Proof.
  intros hdr req env s m'. apply change_secrets, serve_change.
Qed.

Lemma secrets_after_request_witness :
  In (mkSecret "s1" "alice" (js "pwned") 4)
     (secretMessages
        (after (serve (Some "bob") (PUT_secret "s1" (JString (js " pwned ")))
                      (at_ 4 "u4")) alice_has_a_secret))
  /\ (exists m, In m (secretMessages alice_has_a_secret)
                /\ sm_id m = "s1" /\ sm_user_id m = "alice").
Proof.
  assert (H : In (mkSecret "s1" "alice" (js "pwned") 4)
                (secretMessages
                   (after (serve (Some "bob")
                                 (PUT_secret "s1" (JString (js " pwned ")))
                                 (at_ 4 "u4")) alice_has_a_secret)))
    by (simpl; auto).
  split; [exact H|].
  destruct (secrets_after_request (Some "bob")
              (PUT_secret "s1" (JString (js " pwned "))) (at_ 4 "u4")
              alice_has_a_secret _ H) as [Hin | [[(m & Hm & Hi & Ho) _] | [Ho _]]].
  - exists (mkSecret "s1" "alice" (js "mine") 3). simpl. auto.
  - exists m. auto.
  - discriminate Ho.
Defined.

(** ** Users *)





(** ** Secrets *)








(** ** Declining and accepting *)

Lemma find_some_filter {A} (p hit : A -> bool) l x :
  (forall y, hit y = true -> p y = true) ->
  find p l = Some x -> hit x = true ->
  exists rest, filter hit l = x :: rest.
Proof.
  intros Hp. induction l as [|y l IH]; simpl; [discriminate|].
  destruct (p y) eqn:P.
  - intros [= ->] Hx. rewrite Hx. now eexists.
  - intros F Hx. destruct (hit y) eqn:Hy.
    + rewrite (Hp y Hy) in P. discriminate.
    + now apply IH.
Qed.






Lemma update_twice {A} (hit : A -> bool) (f : A -> A) l :
  (forall x, hit (f x) = hit x) -> (forall x, f (f x) = f x) ->
  map (fun x => if hit x then f x else x)
      (map (fun x => if hit x then f x else x) l)
  = map (fun x => if hit x then f x else x) l.
Proof.
  intros Hh Hf. rewrite map_map. apply map_ext. intros x.
  destruct (hit x) eqn:E; [now rewrite Hh, E, Hf | now rewrite E].
Qed.

(** X19. Accepting is idempotent. A second accept of the same request by
    the same caller changes no row; when the caller is the receiver of the
    edge, both answers carry the edge in its accepted form. *)
Theorem accept_is_idempotent :
  forall (userId requestId : string) (s : Store),
    let accept := postFriendsAccept userId requestId in
    let s1 := after accept s in
    same_rows s1 (after accept s1)
    /\ (forall e, find_request requestId s = Some e ->
          fr_receiver_id e = userId ->
          data (answer accept s)
          = RequestData (Some (set_status "accepted" e))
          /\ data (answer accept s1)
             = RequestData (Some (set_status "accepted" e))).
Proof.
  intros userId rid s accept s1.
  set (hit := fun r => (fr_id r =? rid) && (fr_receiver_id r =? userId)).
  assert (D : forall t e, find_request rid t = Some e ->
                fr_receiver_id e = userId ->
                data (answer accept t)
                = RequestData (Some (set_status "accepted" e))).
  { intros t e F Hr. subst accept. unfold answer.
    rewrite postFriendsAccept_run. simpl.
    unfold find_request in F. pose proof (find_some _ _ F) as [_ Hid].
    assert (Hf : exists rest, filter hit (friendRequests t) = e :: rest).
    { apply (find_some_filter (fun r => fr_id r =? rid) hit
               (friendRequests t) e).
      - intros y Hy. now apply andb_prop in Hy as [Hy _].
      - exact F.
      - unfold hit. rewrite Hid, Hr. now rewrite String.eqb_refl. }
    destruct Hf as [rest Hf]. unfold hit in Hf. now rewrite Hf. }
  split.
  - subst s1 accept. unfold after. rewrite !postFriendsAccept_run. simpl.
    repeat split. simpl. symmetry.
    apply (update_twice hit (set_status "accepted")); reflexivity.
  - intros e F Hr. split; [now apply D|].
    replace (set_status "accepted" e)
      with (set_status "accepted" (set_status "accepted" e)) by reflexivity.
    apply D; [|exact Hr].
    subst s1 accept. rewrite postFriendsAccept_edge, F. simpl.
    rewrite Hr. now rewrite String.eqb_refl.
Qed.

Lemma accept_is_idempotent_witness :
  find_request "r1" alice_asked_bob
  = Some (mkRequest "r1" "alice" "bob" "pending" 3)
  /\ data (answer (postFriendsAccept "bob" "r1")
                  (after (postFriendsAccept "bob" "r1") alice_asked_bob))
     = RequestData (Some (mkRequest "r1" "alice" "bob" "accepted" 3)).
Proof.
  split; [reflexivity|].
  pose proof (accept_is_idempotent "bob" "r1" alice_asked_bob) as H.
  cbv zeta in H. destruct H as [_ H].
  apply (H (mkRequest "r1" "alice" "bob" "pending" 3)); reflexivity.
Defined.

(** ** Incoming requests *)





(** ** Sending a request *)


(** ** Deleting a user *)





(** ** Reading a friend's secrets: what is disclosed *)

(** A secret id is in the answer exactly when the join has a matching
    edge, user and secret. *)
Lemma disclosed_iff viewer friendId s sid :
  In sid (disclosed (answer (getFriendsMessages viewer friendId) s))
  <-> friendship_found friendId s = true
      /\ exists e u m,
           In e (friendRequests s) /\ In u (users s)
           /\ In m (secretMessages s)
           /\ (fr_sender_id e = u_id u \/ fr_receiver_id e = u_id u)
           /\ sm_user_id m = u_id u
           /\ fr_receiver_id e = viewer /\ fr_status e = "accepted"
           /\ sm_id m = sid.
Proof.
  unfold friendship_found, disclosed, answer, getFriendsMessages,
    selectFriendship, selectFriendsSecrets.
  db_unfold.
  destruct (filter (accepted_from friendId) (friendRequests s)); simpl.
  { split; [intros [] | intros [H _]; discriminate]. }
  rewrite in_map_iff. split.
  - intros (row & Hid & Hin). split; [reflexivity|].
    apply in_flat_map in Hin as (e & He & Hin).
    apply in_flat_map in Hin as (u & Hu & Hin).
    apply in_flat_map in Hin as (m & Hm & Hin).
    destruct (_ && _) eqn:C in Hin; [|destruct Hin].
    destruct Hin as [<-|[]]. simpl in Hid.
    apply andb_prop in C as [C C3]. apply andb_prop in C as [C1 C2].
    apply andb_prop in C3 as [C3 C4]. apply orb_prop in C1.
    rewrite !String.eqb_eq in *.
    exists e, u, m. repeat split; auto.
  - intros (_ & e & u & m & He & Hu & Hm & C1 & C2 & C3 & C4 & Hid).
    exists (mkFriendSecret (fr_sender_id e) (fr_receiver_id e) (u_email u)
                           (sm_content m) (sm_id m) (fr_created_at e)).
    split; [exact Hid|].
    apply in_flat_map. exists e. split; [exact He|].
    apply in_flat_map. exists u. split; [exact Hu|].
    apply in_flat_map. exists m. split; [exact Hm|].
    replace (((fr_sender_id e =? u_id u) || (fr_receiver_id e =? u_id u))
             && (sm_user_id m =? u_id u)
             && ((fr_receiver_id e =? viewer) && (fr_status e =? "accepted")))
      with true; [now left|].
    symmetry. rewrite !andb_true_iff, orb_true_iff, !String.eqb_eq. auto.
Qed.

(** X20. What a friend read can disclose. Every secret in an answer of
    [GET /friends/messages/:friendId] is a stored secret owned by the sender
    or the receiver of an accepted edge whose receiver is the viewer: the
    viewer never receives a secret of a user who has no accepted edge
    towards the viewer. *)
Theorem friend_read_disclosure_bound :
  forall (viewer friendId : string) (s : Store) (sid : string),
    In sid (disclosed (answer (getFriendsMessages viewer friendId) s)) ->
    exists m e,
      In m (secretMessages s) /\ sm_id m = sid
      /\ In e (friendRequests s)
      /\ fr_status e = "accepted" /\ fr_receiver_id e = viewer
      /\ (sm_user_id m = fr_sender_id e \/ sm_user_id m = viewer).
Proof.
  intros viewer friendId s sid H.
  apply disclosed_iff in H
    as (_ & e & u & m & He & Hu & Hm & C1 & C2 & C3 & C4 & Hid).
  exists m, e. repeat split; auto.
  destruct C1 as [C1|C1]; [left | right]; congruence.
Qed.

Lemma friend_read_disclosure_bound_witness :
  In "s2" (disclosed (answer (getFriendsMessages "bob" "alice")
                             friends_with_secrets))
  /\ exists m e,
       In m (secretMessages friends_with_secrets) /\ sm_id m = "s2"
       /\ In e (friendRequests friends_with_secrets)
       /\ fr_status e = "accepted" /\ fr_receiver_id e = "bob"
       /\ (sm_user_id m = fr_sender_id e \/ sm_user_id m = "bob").
Proof.
  assert (H : In "s2" (disclosed (answer (getFriendsMessages "bob" "alice")
                                         friends_with_secrets)))
    by (simpl; auto).
  split; [exact H|].
  exact (friend_read_disclosure_bound "bob" "alice" friends_with_secrets
           "s2" H).
Defined.

(** X21. What a friend read does disclose. Under the foreign keys, once
    the friendship check for [friendId] passes, the answer contains every
    secret of the viewer and every secret of each sender of an accepted
    edge received by the viewer - whether or not that sender is
    [friendId]. *)
Theorem friend_read_discloses_both_ends :
  forall (viewer friendId : string) (s : Store)
         (e : FriendRequest) (m : SecretMessage),
    references_hold s ->
    friendship_found friendId s = true ->
    In e (friendRequests s) ->
    fr_status e = "accepted" -> fr_receiver_id e = viewer ->
    In m (secretMessages s) ->
    sm_user_id m = fr_sender_id e \/ sm_user_id m = viewer ->
    In (sm_id m) (disclosed (answer (getFriendsMessages viewer friendId) s)).
Proof.
  intros viewer friendId s e m (FKm & _) Hf He Ha Hr Hm Ho.
  apply disclosed_iff. split; [exact Hf|].
  pose proof (FKm m Hm) as X. unfold user_exists in X.
  apply existsb_exists in X as (u & Hu & Hid). apply String.eqb_eq in Hid.
  exists e, u, m. repeat split; auto.
  destruct Ho as [Ho|Ho]; [left | right]; congruence.
Qed.

Lemma friend_read_discloses_both_ends_witness :
  references_hold friends_with_secrets
  /\ friendship_found "alice" friends_with_secrets = true
  /\ In "s1" (disclosed (answer (getFriendsMessages "bob" "alice")
                                friends_with_secrets)).
Proof.
  assert (FK : references_hold friends_with_secrets).
  { split; simpl.
    - intros m [<-|[<-|[]]]; reflexivity.
    - intros e [<-|[]]. split; reflexivity. }
  split; [exact FK|]. split; [reflexivity|].
  apply (friend_read_discloses_both_ends "bob" "alice" friends_with_secrets
           (mkRequest "r1" "alice" "bob" "accepted" 4)
           (mkSecret "s1" "alice" (js "alice's") 6) FK eq_refl);
    simpl; auto.
Defined.

(** ** From request to access *)

Lemma in_users_of_exists id s :
  user_exists id s = true -> exists u, In u (users s) /\ u_id u = id.
Proof.
  unfold user_exists. intros H.
  apply existsb_exists in H as (u & Hu & Hid).
  apply String.eqb_eq in Hid. now exists u.
Qed.

(** X24. The handshake and its direction. A sends a request to B (both
    registered, distinct, no edge for (A, B), key not in use) and B accepts
    it. Then B reading A is answered 200 and receives every secret of A;
    A reading B is answered 401 as long as B is the sender of no accepted
    edge: the edge gives access in one direction only. *)
Theorem handshake_grants_receiver_access :
  forall (s : Store) (A B : string) (env : Env),
    user_exists A s = true -> user_exists B s = true ->
    A <> B -> B <> "" ->
    pair_taken A B s = false ->
    request_id_taken (gen_random_uuid env) s = false ->
    let s1 := after (postAddFriend A (Some B) env) s in
    let s2 := after (postFriendsAccept B (gen_random_uuid env)) s1 in
    code (answer (getFriendsMessages B A) s2) = 200%Z
    /\ (forall m, In m (secretMessages s) -> sm_user_id m = A ->
          In (sm_id m) (disclosed (answer (getFriendsMessages B A) s2)))
    /\ (existsb (accepted_from B) (friendRequests s) = false ->
        answer (getFriendsMessages A B) s2
        = json 401 false "Unauthorized" NoData).
Proof.
  intros s A B env XA XB Hne Hb P T s1 s2.
  set (row := mkRequest (gen_random_uuid env) A B "pending" (now env)).
  set (upd := fun r => if (fr_id r =? gen_random_uuid env)
                          && (fr_receiver_id r =? B)
                       then set_status "accepted" r else r).
  assert (E1 : s1 = mkStore (users s) (secretMessages s)
                      (friendRequests s ++ [row])
                      ((queryLog s ++ [FindFirstFriendRequests])
                         ++ [InsertFriendRequests])).
  { subst s1. unfold after. rewrite postAddFriend_run.
    pose proof Hb as Hb'. apply String.eqb_neq in Hb'. rewrite Hb'.
    replace (B =? A) with false
      by (symmetry; apply String.eqb_neq; congruence).
    simpl. pose proof P as P'. unfold pair_taken in P'.
    apply find_none_existsb in P'. rewrite P', T, XA, XB, P. reflexivity. }
  assert (E2 : friendRequests s2 = map upd (friendRequests s ++ [row])
               /\ users s2 = users s /\ secretMessages s2 = secretMessages s).
  { subst s2. unfold after. rewrite postFriendsAccept_run, E1. now simpl. }
  destruct E2 as (Ef & Eu & Em).
  assert (Hold : forall r, In r (friendRequests s) -> upd r = r).
  { intros r Hr. unfold upd.
    replace (fr_id r =? gen_random_uuid env) with false; [reflexivity|].
    symmetry. apply String.eqb_neq. intros Hid.
    unfold request_id_taken in T.
    assert (existsb (fun r => fr_id r =? gen_random_uuid env)
                    (friendRequests s) = true).
    { apply existsb_exists. exists r. split; [exact Hr|].
      now apply String.eqb_eq. }
    congruence. }
  assert (Hrow : upd row = set_status "accepted" row).
  { unfold upd, row. simpl. now rewrite !String.eqb_refl. }
  assert (Hin : In (set_status "accepted" row) (friendRequests s2)).
  { rewrite Ef, <- Hrow. apply in_map, in_or_app. right. now left. }
  assert (Hf : friendship_found A s2 = true).
  { rewrite friendship_found_existsb. apply existsb_exists.
    exists (set_status "accepted" row). split; [exact Hin|].
    unfold accepted_from. simpl. now rewrite String.eqb_refl. }
  split; [|split].
  - now apply (getFriendsMessages_decision B A s2).
  - intros m Hm Ho. apply disclosed_iff. split; [exact Hf|].
    destruct (in_users_of_exists A s XA) as (u & Hu & Hid).
    exists (set_status "accepted" row), u, m.
    rewrite Eu, Em. repeat split; auto; simpl; congruence.
  - intros N. apply (getFriendsMessages_decision A B s2).
    rewrite friendship_found_existsb, Ef.
    destruct (existsb _ (map upd _)) eqn:X; [|reflexivity].
    exfalso. apply existsb_exists in X as (r' & Hr' & Hacc).
    apply in_map_iff in Hr' as (r & <- & Hr).
    apply in_app_iff in Hr as [Hr|[<-|[]]].
    + rewrite (Hold r Hr) in Hacc.
      assert (existsb (accepted_from B) (friendRequests s) = true)
        by (apply existsb_exists; now exists r).
      congruence.
    + rewrite Hrow in Hacc. unfold accepted_from in Hacc. simpl in Hacc.
      apply andb_prop in Hacc as [Hacc _]. apply String.eqb_eq in Hacc.
      congruence.
Qed.

Lemma handshake_grants_receiver_access_witness :
  user_exists "alice" alice_has_a_secret = true
  /\ user_exists "bob" alice_has_a_secret = true
  /\ "alice" <> "bob" /\ "bob" <> ""
  /\ pair_taken "alice" "bob" alice_has_a_secret = false
  /\ request_id_taken "r1" alice_has_a_secret = false
  /\ In "s1"
        (disclosed
           (answer (getFriendsMessages "bob" "alice")
              (after (postFriendsAccept "bob" "r1")
                 (after (postAddFriend "alice" (Some "bob") (at_ 4 "r1"))
                        alice_has_a_secret))))
  /\ answer (getFriendsMessages "alice" "bob")
       (after (postFriendsAccept "bob" "r1")
          (after (postAddFriend "alice" (Some "bob") (at_ 4 "r1"))
                 alice_has_a_secret))
     = json 401 false "Unauthorized" NoData.
Proof.
  assert (Hab : "alice" <> "bob") by discriminate.
  assert (Hb : "bob" <> "") by discriminate.
  split; [reflexivity|]. split; [reflexivity|]. split; [exact Hab|].
  split; [exact Hb|]. split; [reflexivity|]. split; [reflexivity|].
  pose proof (handshake_grants_receiver_access alice_has_a_secret "alice"
                "bob" (at_ 4 "r1") eq_refl eq_refl Hab Hb eq_refl eq_refl)
    as H.
  cbv zeta in H. destruct H as (_ & Hd & Hu). split.
  - apply (Hd (mkSecret "s1" "alice" (js "mine") 3)); simpl; auto.
  - apply Hu. reflexivity.
Defined.

(** ** The middleware applied twice *)

(** Four routes pass through [authMiddleware] twice (once for the
    [/api/protected] prefix, once in the route itself); the second pass
    changes nothing: it lets through exactly what the first did, with the
    same identity. *)
Lemma authMiddleware_twice :
  forall (hdr : option string) (next : string -> Db Response) (s : Store),
    authMiddleware hdr (fun userId => authMiddleware (Some userId) next) s
    = authMiddleware hdr next s.
Proof.
  intros hdr next s. unfold authMiddleware.
  destruct hdr as [u|]; [|reflexivity].
  destruct (u =? ""); reflexivity.
Qed.
